(** * BBH HMS: session authentication, role gate and website updater

    A shallow embedding of [auth.service.ts], [auth.guard.ts],
    [roles.guard.ts], [audit.service.ts] and [updater.service.ts], with
    the start-up code of [app.module.ts] and [main.ts].

    The services are asynchronous TypeScript methods that talk to a
    relational user table (Prisma), a Redis session store, the Argon2
    verifier, the file system and child processes.  Every method is
    embedded as a computation of the monad [M] below: a function from the
    [World] (everything the services can read or change) to an outcome
    ([Ok] value or thrown [Exn]) and the new world.  What the outside
    answers (hash verification, file-system probes, child-process
    results) is read from an [Env] of oracles.  Calls to [Logger] only
    write diagnostics and are left out. *)

From Stdlib Require Import ZArith Ascii String List Bool Lia.
From stdpp Require Import base option gmap strings.
Import ListNotations.
Local Open Scope string_scope.

(** ** JavaScript string primitives used by the services *)

Module Js.

(** [c] is one of the ASCII white-space characters removed by
    [String.prototype.trim]: TAB, LF, VT, FF, CR and SPACE. *)
Definition is_space (c : ascii) : bool :=
  let n := nat_of_ascii c in
  ((9 <=? n)%nat && (n <=? 13)%nat) || (n =? 32)%nat.

Fixpoint trimStart (s : string) : string :=
  match s with
  | String c r => if is_space c then trimStart r else s
  | EmptyString => EmptyString
  end.

(** White space is dropped from the right end: a character survives
    when it is not a space or something after it survives. *)
Fixpoint trimEnd (s : string) : string :=
  match s with
  | String c r =>
      match trimEnd r with
      | EmptyString => if is_space c then EmptyString else String c EmptyString
      | r' => String c r'
      end
  | EmptyString => EmptyString
  end.

Definition trim (s : string) : string := trimEnd (trimStart s).

Definition lower_ascii (c : ascii) : ascii :=
  let n := nat_of_ascii c in
  if ((65 <=? n)%nat && (n <=? 90)%nat) then ascii_of_nat (n + 32) else c.

(** [String.prototype.toLowerCase] on the ASCII range. *)
Fixpoint toLowerCase (s : string) : string :=
  match s with
  | String c r => String (lower_ascii c) (toLowerCase r)
  | EmptyString => EmptyString
  end.

(** [Array.prototype.join]. *)
Fixpoint join (sep : string) (l : list string) : string :=
  match l with
  | [] => ""
  | [x] => x
  | x :: r => x ++ sep ++ join sep r
  end.

(** [Boolean(s)] for a string: the empty string is the only falsy one. *)
Definition truthy (s : string) : bool := negb (s =? "").

(** [path.join] of Node on POSIX, for the already normalised segments
    the updater passes to it. *)
Definition path_join (segments : list string) : string := join "/" segments.

End Js.

Local Open Scope list_scope.

(** ** Data model *)

(** Modelled from the spec: the [Role] enumeration of [@prisma/client]
    (the Prisma schema is not part of the sources); the spec gives the
    closed set OWNER, MANAGER, FRONT_DESK, HOUSEKEEPING, KITCHEN,
    MAINTENANCE. *)
Inductive Role : Type :=
  | OWNER | MANAGER | FRONT_DESK | HOUSEKEEPING | KITCHEN | MAINTENANCE.

Definition Role_eqb (a b : Role) : bool :=
  match a, b with
  | OWNER, OWNER | MANAGER, MANAGER | FRONT_DESK, FRONT_DESK
  | HOUSEKEEPING, HOUSEKEEPING | KITCHEN, KITCHEN
  | MAINTENANCE, MAINTENANCE => true
  | _, _ => false
  end.

(** The string a role is printed as (enum members are their own names). *)
Definition Role_name (r : Role) : string :=
  match r with
  | OWNER => "OWNER" | MANAGER => "MANAGER" | FRONT_DESK => "FRONT_DESK"
  | HOUSEKEEPING => "HOUSEKEEPING" | KITCHEN => "KITCHEN"
  | MAINTENANCE => "MAINTENANCE"
  end.

(** A row of the [user] table, with the columns the services touch. *)
Record User : Type := mkUser {
  id : string;
  email : string;
  password_hash : string;
  role : Role;
  first_name : string;
  last_name : string;
  is_active : bool;
  last_login_at : option Z
}.

(** [SessionUser]: the payload kept in the session. *)
Record SessionUser : Type := mkSessionUser {
  su_id : string;
  su_email : string;
  su_role : Role;
  su_firstName : string;
  su_lastName : string
}.

Record LoginDto : Type := mkLoginDto {
  dto_email : string;
  dto_password : string
}.

Record LoginResult : Type := mkLoginResult {
  lr_user : SessionUser;
  lr_sessionId : string
}.

(** [req.session] as a handler sees it. *)
Record Session : Type := mkSession {
  sessionId : string;
  session_user : option SessionUser
}.

(** The parts of a [FastifyRequest] the services read: the session, the
    client address, the user-agent header and the [user] that
    [AuthGuard] attaches. *)
Record FastifyRequest : Type := mkRequest {
  session : Session;
  ip : string;
  user_agent : option string;
  req_user : option User
}.

(** [AuditLogInput] of [audit.service.ts]; the two value snapshots are
    object literals, kept as their key/value pairs in order. *)
Record AuditLogInput : Type := mkAudit {
  action : string;
  resource : string;
  resourceId : option string;
  oldValue : option (list (string * string));
  newValue : option (list (string * string));
  performedById : option string;
  ipAddress : option string;
  userAgent : option string
}.

Record UpdateResult : Type := mkUpdateResult {
  success : bool;
  output : string;
  branch : string;
  commit : string;
  timestamp : Z
}.

Record WebsiteStatus : Type := mkStatus {
  st_branch : string;
  st_commit : string;
  lastModified : option Z;
  isClean : bool
}.

(** Exceptions: the four Nest HTTP exceptions the code throws, and a
    plain [Error] for what a rejected library promise carries. *)
Inductive Exn : Type :=
  | BadRequestException (msg : string)
  | UnauthorizedException (msg : string)
  | ForbiddenException (msg : string)
  | InternalServerErrorException (msg : string)
  | Error (msg : string).

Definition message (e : Exn) : string :=
  match e with
  | BadRequestException m | UnauthorizedException m | ForbiddenException m
  | InternalServerErrorException m | Error m => m
  end.

(** [err instanceof BadRequestException] *)
Definition isBadRequest (e : Exn) : bool :=
  match e with BadRequestException _ => true | _ => false end.

(** One [execAsync] call: the command line and its options. *)
Record ExecCall : Type := mkExec {
  cmd : string;
  cwd : string;
  timeout : option Z;
  extra_env : list (string * string)
}.

(** ** The world and the outside *)

(** Everything the services read or change.  [sessions] is the Redis
    store: session id to payload and expiry instant.  [audited] lists
    the inputs [AuditService.log] was called with, [auditRows] the rows
    that reached the table.  [verified] lists the [argon2.verify] calls
    (hash, password) and [spawned] the child processes, oldest first. *)
Record World : Type := mkWorld {
  users : list User;
  sessions : gmap string (SessionUser * Z);
  redisUp : bool;
  audited : list AuditLogInput;
  auditRows : list AuditLogInput;
  verified : list (string * string);
  spawned : list ExecCall;
  isUpdating : bool;
  now : Z
}.

(** What the outside answers.  A rejected promise is [inl] of its error
    message.  A child process may answer differently after the world
    changed, so [execAsync] sees the processes spawned before it. *)
Record Env : Type := mkEnv {
  argon2_verify : string -> string -> string + bool;
  path_resolve : string -> string;
  fs_access : string -> option string;
  fs_stat_mtime : string -> option Z;
  execAsync : list ExecCall -> ExecCall -> string + (string * string);
  auditLog_create : AuditLogInput -> option string
}.

(** Functional updates of single fields. *)
Definition set_users (f : list User -> list User) (w : World) : World :=
  mkWorld (f (users w)) (sessions w) (redisUp w) (audited w) (auditRows w)
          (verified w) (spawned w) (isUpdating w) (now w).
Definition set_sessions
    (f : gmap string (SessionUser * Z) -> gmap string (SessionUser * Z))
    (w : World) : World :=
  mkWorld (users w) (f (sessions w)) (redisUp w) (audited w) (auditRows w)
          (verified w) (spawned w) (isUpdating w) (now w).
Definition set_audited (f : list AuditLogInput -> list AuditLogInput)
    (w : World) : World :=
  mkWorld (users w) (sessions w) (redisUp w) (f (audited w)) (auditRows w)
          (verified w) (spawned w) (isUpdating w) (now w).
Definition set_auditRows (f : list AuditLogInput -> list AuditLogInput)
    (w : World) : World :=
  mkWorld (users w) (sessions w) (redisUp w) (audited w) (f (auditRows w))
          (verified w) (spawned w) (isUpdating w) (now w).
Definition set_verified (f : list (string * string) -> list (string * string))
    (w : World) : World :=
  mkWorld (users w) (sessions w) (redisUp w) (audited w) (auditRows w)
          (f (verified w)) (spawned w) (isUpdating w) (now w).
Definition set_spawned (f : list ExecCall -> list ExecCall) (w : World) : World :=
  mkWorld (users w) (sessions w) (redisUp w) (audited w) (auditRows w)
          (verified w) (f (spawned w)) (isUpdating w) (now w).
Definition set_isUpdating (b : bool) (w : World) : World :=
  mkWorld (users w) (sessions w) (redisUp w) (audited w) (auditRows w)
          (verified w) (spawned w) b (now w).

(** ** The monad of the services: world passing with exceptions *)

Inductive Result (A : Type) : Type :=
  | Ok (a : A)
  | Err (e : Exn).
Arguments Ok {A} a.
Arguments Err {A} e.

Definition M (A : Type) : Type := World -> Result A * World.

Definition ret {A} (a : A) : M A := fun w => (Ok a, w).
Definition throw {A} (e : Exn) : M A := fun w => (Err e, w).

Definition bind {A B} (m : M A) (k : A -> M B) : M B :=
  fun w =>
    match m w with
    | (Ok a, w') => k a w'
    | (Err e, w') => (Err e, w')
    end.

(** [try { m } catch (e) { h e }] *)
Definition try_catch {A} (m : M A) (h : Exn -> M A) : M A :=
  fun w =>
    match m w with
    | (Ok a, w') => (Ok a, w')
    | (Err e, w') => h e w'
    end.

(** [try { m } finally { f }], for a [finally] block that cannot throw. *)
Definition try_finally {A} (m : M A) (f : World -> World) : M A :=
  fun w => let (r, w') := m w in (r, f w').

Definition modify (f : World -> World) : M unit := fun w => (Ok tt, f w).
Definition get {A} (f : World -> A) : M A := fun w => (Ok (f w), w).

Declare Scope svc_scope.
Delimit Scope svc_scope with svc.
Notation "x <- m ;; k" := (bind m (fun x => k))
  (at level 100, m at next level, right associativity) : svc_scope.
Notation "m ;;; k" := (bind m (fun _ => k))
  (at level 100, right associativity) : svc_scope.
Local Open Scope svc_scope.

(** ** AuditService *)

Section Services.

Variable env : Env.

(** [AuditService.log]: the insert is wrapped in [try]/[catch], so the
    call returns normally whether or not the row was written. *)
Definition audit_log (input : AuditLogInput) : M unit :=
  modify (set_audited (fun l => l ++ [input])) ;;;
  try_catch
    (match auditLog_create env input with
     | None => modify (set_auditRows (fun l => l ++ [input]))
     | Some e => throw (Error e)
     end)
    (fun _ => ret tt).

(** ** The session store *)

(** Cookie [maxAge] of [main.ts]: 8 hours in milliseconds. *)
Definition SESSION_TTL : Z := 8 * 60 * 60 * 1000.

(** Modelled from the spec: the read the session middleware
    ([@fastify/session] over [connect-redis], not part of the sources)
    does before a handler runs.  A live entry gives its payload and has
    its expiry moved to a full TTL from now (rolling expiry); a missing
    or expired one gives a session without a user. *)
Definition store_get (sid : string) : M (option SessionUser) :=
  fun w =>
    match sessions w !! sid with
    | Some (p, expires) =>
        if (now w <? expires)%Z
        then (Ok (Some p),
              set_sessions (<[sid := (p, (now w + SESSION_TTL)%Z)]>) w)
        else (Ok None, w)
    | None => (Ok None, w)
    end.

(** The request a client holding session id [sid] presents. *)
Definition incoming (sid addr : string) (ua : option string)
    : M FastifyRequest :=
  p <- store_get sid ;;
  ret (mkRequest (mkSession sid p) addr ua None).

(** Modelled from the spec: [req.session.save()], the store's
    [set(key, value, ttl)]; it rejects when the store is unreachable. *)
Definition session_save (sid : string) (p : SessionUser) : M unit :=
  fun w =>
    if redisUp w
    then (Ok tt, set_sessions (<[sid := (p, (now w + SESSION_TTL)%Z)]>) w)
    else (Err (Error "session store unavailable"), w).

(** Modelled from the spec: [req.session.destroy(cb)], the store's
    [delete(key)]; [cb] receives an error when the store is
    unreachable and nothing otherwise, also for an absent key. *)
Definition session_destroy (sid : string) : M unit :=
  fun w =>
    if redisUp w
    then (Ok tt, set_sessions (delete sid) w)
    else (Err (Error "session store unavailable"), w).

(** ** The user table *)

(** [prisma.user.findUnique({ where: { email } })] *)
Definition findUnique_email (e : string) : M (option User) :=
  get (fun w => find (fun u => email u =? e) (users w)).

(** [prisma.user.findUnique({ where: { id } })] *)
Definition findUnique_id (i : string) : M (option User) :=
  get (fun w => find (fun u => id u =? i) (users w)).

Definition with_last_login (t : Z) (u : User) : User :=
  mkUser (id u) (email u) (password_hash u) (role u) (first_name u)
         (last_name u) (is_active u) (Some t).

Definition with_is_active (b : bool) (u : User) : User :=
  mkUser (id u) (email u) (password_hash u) (role u) (first_name u)
         (last_name u) b (last_login_at u).

Definition update_where_id (i : string) (f : User -> User)
    (l : list User) : list User :=
  map (fun u => if id u =? i then f u else u) l.

(** [prisma.user.update({ where: { id }, data: { last_login_at: new Date() } })] *)
Definition touch_last_login (i : string) : M unit :=
  modify (fun w => set_users (update_where_id i (with_last_login (now w))) w).

(** Modelled from the spec: deactivation of a user, done by a caller
    that is not part of the sources: the row's [is_active] becomes
    false and nothing else changes. *)
Definition deactivate (i : string) (w : World) : World :=
  set_users (update_where_id i (with_is_active false)) w.

(** ** AuthService *)

Definition PLACEHOLDER_HASH : string :=
  "$argon2id$v=19$m=65536,t=3,p=4$placeholder$placeholder".

(** [argon2.verify(hash, password)] *)
Definition argon2_verify_m (hash password : string) : M bool :=
  modify (set_verified (fun l => l ++ [(hash, password)])) ;;;
  match argon2_verify env hash password with
  | inr b => ret b
  | inl e => throw (Error e)
  end.

Definition login (dto : LoginDto) (req : FastifyRequest) : M LoginResult :=
  let '(mkLoginDto email_ password) := dto in
  (* 1. Find user *)
  found <- findUnique_email (Js.trim (Js.toLowerCase email_)) ;;
  match found with
  | None =>
      try_catch (argon2_verify_m PLACEHOLDER_HASH password ;;; ret tt)
                (fun _ => ret tt) ;;;
      throw (UnauthorizedException "Invalid credentials")
  | Some user =>
      (* 2. Check account is active *)
      if negb (is_active user)
      then throw (ForbiddenException "Account has been deactivated")
      else
        (* 3. Verify password *)
        isValid <- argon2_verify_m (password_hash user) password ;;
        if negb isValid
        then
          audit_log (mkAudit "USER_LOGIN_FAILED" "User" (Some (id user))
                       None None None (Some (ip req)) (user_agent req)) ;;;
          throw (UnauthorizedException "Invalid credentials")
        else
          (* 4. Build session payload *)
          let sessionUser :=
            mkSessionUser (id user) (email user) (role user)
                          (first_name user) (last_name user) in
          (* 5. Attach to session and persist *)
          session_save (sessionId (session req)) sessionUser ;;;
          (* 6. Update last_login_at *)
          touch_last_login (id user) ;;;
          (* 7. Audit log *)
          audit_log (mkAudit "USER_LOGIN" "User" (Some (id user))
                       None None (Some (id user)) (Some (ip req))
                       (user_agent req)) ;;;
          ret (mkLoginResult sessionUser (sessionId (session req)))
  end.

Definition logout (req : FastifyRequest) : M unit :=
  let sessionUser := session_user (session req) in
  session_destroy (sessionId (session req)) ;;;
  match sessionUser with
  | Some su =>
      audit_log (mkAudit "USER_LOGOUT" "User" (Some (su_id su))
                   None None (Some (su_id su)) (Some (ip req))
                   (user_agent req))
  | None => ret tt
  end.

Definition revokeAllSessionsForUser (targetUserId performedById : string)
    (ipAddress : option string) : M unit :=
  audit_log (mkAudit "USER_SESSIONS_REVOKED" "User" (Some targetUserId)
               None None (Some performedById) ipAddress None).

(** [!sessionUser?.id]: no payload, or a payload whose id is empty. *)
Definition getSessionUser (req : FastifyRequest) : M (option User) :=
  match session_user (session req) with
  | None => ret None
  | Some sessionUser =>
      if negb (Js.truthy (su_id sessionUser)) then ret None
      else
        found <- findUnique_id (su_id sessionUser) ;;
        match found with
        | None => ret None
        | Some user => if negb (is_active user) then ret None
                       else ret (Some user)
        end
  end.

(** ** AuthGuard and RolesGuard *)

(** [AuthGuard.canActivate]; [isPublic] is the route's [@Public()]
    metadata.  The request comes back with the user attached. *)
Definition AuthGuard_canActivate (isPublic : bool) (req : FastifyRequest)
    : M (bool * FastifyRequest) :=
  if isPublic then ret (true, req)
  else
    user <- getSessionUser req ;;
    match user with
    | None => throw (UnauthorizedException "Session expired or invalid")
    | Some u =>
        ret (true, mkRequest (session req) (ip req) (user_agent req) (Some u))
    end.

(** [RolesGuard.canActivate]; [requiredRoles] is the [@Roles(...)]
    metadata, [None] when the route carries none. *)
Definition RolesGuard_canActivate (requiredRoles : option (list Role))
    (req : FastifyRequest) : Result bool :=
  match requiredRoles with
  | None => Ok true
  | Some roles =>
      if (length roles =? 0)%nat then Ok true
      else
        match req_user req with
        | None => Err (ForbiddenException "Not authenticated")
        | Some user =>
            if negb (existsb (Role_eqb (role user)) roles)
            then Err (ForbiddenException
                        ("Access denied. Required roles: "
                         ++ Js.join ", " (map Role_name roles))%string)
            else Ok true
        end
  end.

(** [POST /auth/logout] of [AuthController]: guarded by [AuthGuard]. *)
Definition AuthController_logout (req : FastifyRequest) : M string :=
  g <- AuthGuard_canActivate false req ;;
  logout (snd g) ;;;
  ret "Logged out successfully".

End Services.

(** ** UpdaterService *)

Section Updater.

Variable env : Env.

Definition WEBSITE_MOUNT : string := "/mnt/website".
Definition GIT_TIMEOUT_MS : Z := 60000.

(** [execAsync(cmd, options)]: the process is spawned (and recorded),
    then the promise resolves with the two output streams or rejects:
    non-zero exit, failure to spawn, or the kill at the timeout. *)
Definition exec (c : ExecCall) : M (string * string) :=
  fun w =>
    (match execAsync env (spawned w) c with
     | inr out => Ok out
     | inl e => Err (Error e)
     end,
     set_spawned (fun l => l ++ [c]) w).

(** [fs.access(path)] *)
Definition access (p : string) : M unit :=
  match fs_access env p with
  | None => ret tt
  | Some e => throw (Error e)
  end.

Definition validateMountPoint (mountPath : string) : M unit :=
  let resolved := path_resolve env mountPath in
  if negb (resolved =? WEBSITE_MOUNT)%string
  then throw (BadRequestException "Invalid mount path")
  else
    try_catch
      (access resolved ;;;
       gitDir <- try_catch (access (Js.path_join [resolved; ".git"]) ;;;
                            ret true)
                           (fun _ => ret false) ;;
       if negb gitDir
       then throw (BadRequestException
                     "Website directory is not a git repository")
       else ret tt)
      (fun err =>
         if isBadRequest err then throw err
         else throw (InternalServerErrorException
                       "Website mount point is not accessible")).

Definition rev_parse_commit (dir : string) : ExecCall :=
  mkExec "git rev-parse --short HEAD" dir (Some 5000%Z) [].
Definition rev_parse_branch (dir : string) : ExecCall :=
  mkExec "git rev-parse --abbrev-ref HEAD" dir (Some 5000%Z) [].
Definition git_pull : ExecCall :=
  mkExec "git pull --ff-only" WEBSITE_MOUNT (Some GIT_TIMEOUT_MS)
         [("GIT_TERMINAL_PROMPT", "0"); ("HOME", "/tmp")].
Definition git_status : ExecCall :=
  mkExec "git status --porcelain" WEBSITE_MOUNT None [].

Definition getGitCommit (dir : string) : M string :=
  out <- try_catch (exec (rev_parse_commit dir))
                   (fun _ => ret ("unknown", "")) ;;
  ret (Js.trim (fst out)).

Definition getGitBranch (dir : string) : M string :=
  out <- try_catch (exec (rev_parse_branch dir))
                   (fun _ => ret ("unknown", "")) ;;
  ret (Js.trim (fst out)).

(** The body of the [try] block of [pullWebsiteUpdate]. *)
Definition pull_body (performedById : string) (ipAddress : option string)
    : M UpdateResult :=
  (* 2. Validate mount point exists *)
  validateMountPoint WEBSITE_MOUNT ;;;
  (* 3. Get current state for audit log *)
  beforeCommit <- getGitCommit WEBSITE_MOUNT ;;
  (* 4. Run git pull *)
  out <- exec git_pull ;;
  let output :=
    Js.trim (Js.join (String "010" "") (filter Js.truthy [fst out; snd out])) in
  (* 5. Get new commit hash *)
  afterCommit <- getGitCommit WEBSITE_MOUNT ;;
  branch <- getGitBranch WEBSITE_MOUNT ;;
  t <- get now ;;
  let result := mkUpdateResult true output branch afterCommit t in
  (* 6. Audit log *)
  audit_log env
    (mkAudit "WEBSITE_UPDATE" "WebsiteSource" None
       (Some [("commit", beforeCommit)])
       (Some [("commit", afterCommit); ("branch", branch);
              ("output", output)])
       (Some performedById) ipAddress None) ;;;
  ret result.

(** The [catch] block of [pullWebsiteUpdate]. *)
Definition pull_catch (performedById : string) (ipAddress : option string)
    (error : Exn) : M UpdateResult :=
  audit_log env
    (mkAudit "WEBSITE_UPDATE_FAILED" "WebsiteSource" None None
       (Some [("error", message error)])
       (Some performedById) ipAddress None) ;;;
  throw (InternalServerErrorException
           ("Update failed: " ++ message error)%string).

(** What follows the mutex check: [try]/[catch]/[finally]. *)
Definition pull_guarded (performedById : string) (ipAddress : option string)
    : M UpdateResult :=
  try_finally
    (try_catch (pull_body performedById ipAddress)
               (pull_catch performedById ipAddress))
    (set_isUpdating false).

(** The mutex check and the taking of the flag; no [await] separates
    them, so no other call runs between the test and the assignment. *)
Definition pull_acquire : M unit :=
  fun w =>
    if isUpdating w
    then (Err (BadRequestException "An update is already in progress"), w)
    else (Ok tt, set_isUpdating true w).

Definition pullWebsiteUpdate (performedById : string)
    (ipAddress : option string) : M UpdateResult :=
  pull_acquire ;;;
  pull_guarded performedById ipAddress.

(** [getWebsiteStatus].  The three promises of [Promise.all] each
    spawn their process at once, in the order written; none of them
    can reject, each has its own [catch]. *)
Definition getWebsiteStatus : M WebsiteStatus :=
  validateMountPoint WEBSITE_MOUNT ;;;
  branch <- getGitBranch WEBSITE_MOUNT ;;
  commit <- getGitCommit WEBSITE_MOUNT ;;
  statusOut <- try_catch (out <- exec git_status ;; ret (Js.trim (fst out)))
                         (fun _ => ret "") ;;
  let stat :=
    fs_stat_mtime env (Js.path_join [WEBSITE_MOUNT; ".git"; "FETCH_HEAD"]) in
  ret (mkStatus branch commit stat (statusOut =? "")%string).

End Updater.

(** ** Vocabulary of the statements *)

(** The three checks of [validateMountPoint] on the configured mount:
    the resolved path is the approved one, it is accessible, and it
    holds a [.git] entry. *)
Definition target_ok (env : Env) : bool :=
  (path_resolve env WEBSITE_MOUNT =? WEBSITE_MOUNT)%string
  && bool_decide (fs_access env WEBSITE_MOUNT = None)
  && bool_decide (fs_access env (Js.path_join [WEBSITE_MOUNT; ".git"]) = None).

(** What a revision query spawned after the processes [before] reports:
    its trimmed output, or [unknown] when the process fails. *)
Definition reported (env : Env) (before : list ExecCall) (c : ExecCall)
    : string :=
  Js.trim (match execAsync env before c with
           | inr out => fst out
           | inl _ => "unknown"
           end).

(** The captured output of a pull: the non-empty streams, one per line. *)
Definition captured (out : string * string) : string :=
  Js.trim (Js.join (String "010" "") (filter Js.truthy [fst out; snd out])).

Definition update_event (before after branch output performedById : string)
    (ipAddress : option string) : AuditLogInput :=
  mkAudit "WEBSITE_UPDATE" "WebsiteSource" None
    (Some [("commit", before)])
    (Some [("commit", after); ("branch", branch); ("output", output)])
    (Some performedById) ipAddress None.

Definition update_failed_event (msg performedById : string)
    (ipAddress : option string) : AuditLogInput :=
  mkAudit "WEBSITE_UPDATE_FAILED" "WebsiteSource" None None
    (Some [("error", msg)]) (Some performedById) ipAddress None.

(** The outcome is a thrown [BadRequestException]. *)
Definition throwsBadRequest {A} (r : Result A) : bool :=
  match r with Err e => isBadRequest e | Ok _ => false end.

(** The row with a given id, as [findUnique] sees it. *)
Definition row (i : string) (w : World) : option User :=
  find (fun u => (id u =? i)%string) (users w).

(** The row [login] finds for the address typed in. *)
Definition account (typed : string) (w : World) : option User :=
  find (fun u => (email u =? Js.trim (Js.toLowerCase typed))%string) (users w).

Definition login_failed_event (u : User) (req : FastifyRequest)
    : AuditLogInput :=
  mkAudit "USER_LOGIN_FAILED" "User" (Some (id u)) None None None
    (Some (ip req)) (user_agent req).

Definition logout_event (su : SessionUser) (req : FastifyRequest)
    : AuditLogInput :=
  mkAudit "USER_LOGOUT" "User" (Some (su_id su)) None None (Some (su_id su))
    (Some (ip req)) (user_agent req).

Definition revoked_event (targetUserId performedById : string)
    (ipAddress : option string) : AuditLogInput :=
  mkAudit "USER_SESSIONS_REVOKED" "User" (Some targetUserId) None None
    (Some performedById) ipAddress None.

(** The text of the rejection [RolesGuard] sends for a role list. *)
Definition access_denied (roles : list Role) : Exn :=
  ForbiddenException
    ("Access denied. Required roles: " ++ Js.join ", " (map Role_name roles))%string.

(** A computation leaves the observation [f] of the world as it was. *)
Definition keeps {A B} (f : World -> B) (m : M A) : Prop :=
  forall w, f (snd (m w)) = f w.

(** The session payload [login] builds from a row (step 4). *)
Definition payload_of (u : User) : SessionUser :=
  mkSessionUser (id u) (email u) (role u) (first_name u) (last_name u).

Definition login_event (u : User) (req : FastifyRequest) : AuditLogInput :=
  mkAudit "USER_LOGIN" "User" (Some (id u)) None None (Some (id u))
    (Some (ip req)) (user_agent req).


(** [@UseGuards(AuthGuard, RolesGuard)] as on [ConfigController]: the
    guards run in the order listed, a throwing guard ends the request,
    and the handler sees the request as the guards left it. *)
Definition UseGuards_Auth_Roles (isPublic : bool)
    (requiredRoles : option (list Role)) (req : FastifyRequest)
    : M FastifyRequest :=
  bind (AuthGuard_canActivate isPublic req)
       (fun g => match RolesGuard_canActivate requiredRoles (snd g) with
                 | Ok _ => ret (snd g)
                 | Err e => throw e
                 end).

(** The three processes of one [getWebsiteStatus], in spawn order. *)
Definition status_processes : list ExecCall :=
  [rev_parse_branch WEBSITE_MOUNT; rev_parse_commit WEBSITE_MOUNT; git_status].

(** The process traces one [pullWebsiteUpdate] can leave behind. *)
Definition pull_traces : list (list ExecCall) :=
  [ [];
    [rev_parse_commit WEBSITE_MOUNT; git_pull];
    [rev_parse_commit WEBSITE_MOUNT; git_pull;
     rev_parse_commit WEBSITE_MOUNT; rev_parse_branch WEBSITE_MOUNT] ].

(** The same outside with another answer of the audit table. *)
Definition with_audit_table (f : AuditLogInput -> option string) (env : Env)
    : Env :=
  mkEnv (argon2_verify env) (path_resolve env) (fs_access env)
        (fs_stat_mtime env) (execAsync env) f.


(** ** Start-up code *)

(** [reconnectStrategy] of the Redis client in [main.ts]: the delay in
    milliseconds before reconnection attempt number [retries]. *)
Definition reconnectStrategy (retries : Z) : Z := Z.min (retries * 50) 2000.

Module AppModule.

(** The columns of [GlobalConfig] that the seed sets. *)
Record GlobalConfig : Type := mkConfig {
  hotel_name : string;
  currency : string;
  timezone : string;
  maintenance_mode : bool;
  primary_color : string;
  accent_color : string
}.

(** The two tables [onModuleInit] works on: the configuration rows and
    the module switches, module name to [is_enabled]. *)
Record Db : Type := mkDb {
  globalConfig : list GlobalConfig;
  moduleState : gmap string bool
}.

Definition default_config : GlobalConfig :=
  mkConfig "BBH Hotel" "USD" "UTC" false "#1a56db" "#7e3af2".

(** [prisma.moduleState.upsert] with an empty [update] and a [create]
    that switches the module off. *)
Definition upsert (module_name : string) (m : gmap string bool)
    : gmap string bool :=
  match m !! module_name with
  | Some _ => m
  | None => <[module_name := false]> m
  end.

(** [onModuleInit]; [modulesToSeed] is [Object.values(ModuleName)], an
    enumeration of [@prisma/client] that the sources do not contain. *)
Definition onModuleInit (modulesToSeed : list string) (db : Db) : Db :=
  let existing := length (globalConfig db) in
  let configs := if (existing =? 0)%nat
                 then globalConfig db ++ [default_config]
                 else globalConfig db in
  mkDb configs
       (fold_left (fun m moduleName => upsert moduleName m) modulesToSeed
                  (moduleState db)).

End AppModule.

(** ** Sample data for the examples *)

Module Sample.

Definition alice : User :=
  mkUser "u1" "owner@hotel.com" "hash:pw" OWNER "Alice" "Ng" true None.
Definition bob : User :=
  mkUser "u2" "bob@hotel.com" "hash:secret" FRONT_DESK "Bob" "Lee" false None.

Definition alice_payload : SessionUser :=
  mkSessionUser "u1" "owner@hotel.com" OWNER "Alice" "Ng".

(** A verifier that rejects the malformed placeholder hash and accepts
    a password [p] for the hash ["hash:" ++ p]. *)
Definition verify (hash password : string) : string + bool :=
  if (hash =? PLACEHOLDER_HASH)%string then inl "invalid hash"
  else inr (hash =? "hash:" ++ password)%string.

(** A healthy checkout: every probe succeeds, the pull moves HEAD
    from [abc1234] to [def5678]. *)
Definition git (before : list ExecCall) (c : ExecCall)
    : string + (string * string) :=
  if (cmd c =? "git pull --ff-only")%string
  then inr ("Updating abc1234..def5678" ++ String "010" "", "")%string
  else if (cmd c =? "git rev-parse --short HEAD")%string
  then if existsb (fun p => (cmd p =? "git pull --ff-only")%string) before
       then inr ("def5678" ++ String "010" "", "")%string
       else inr ("abc1234" ++ String "010" "", "")%string
  else if (cmd c =? "git rev-parse --abbrev-ref HEAD")%string
  then inr ("main" ++ String "010" "", "")%string
  else inr ("", "").

Definition env : Env :=
  mkEnv verify (fun p => p) (fun _ => None) (fun _ => Some 1700000000000%Z)
        git (fun _ => None).

(** The mount point is missing. *)
Definition env_no_mount : Env :=
  mkEnv verify (fun p => p) (fun _ => Some "ENOENT: no such file or directory")
        (fun _ => None) git (fun _ => None).

(** The mount point exists but is not a checkout. *)
Definition env_no_git : Env :=
  mkEnv verify (fun p => p)
        (fun p => if (p =? "/mnt/website")%string then None
                  else Some "ENOENT: no such file or directory")
        (fun _ => None) git (fun _ => None).

(** [git] is not installed or times out on every command. *)
Definition env_git_down : Env :=
  mkEnv verify (fun p => p) (fun _ => None) (fun _ => None)
        (fun _ _ => inl "Command failed") (fun _ => None).

(** Revision queries fail, the pull itself works. *)
Definition env_rev_parse_fails : Env :=
  mkEnv verify (fun p => p) (fun _ => None) (fun _ => None)
        (fun before c =>
           if (cmd c =? "git pull --ff-only")%string
           then inr ("Already up to date.", "")
           else inl "Command failed: git rev-parse")
        (fun _ => None).

Definition world : World :=
  mkWorld [alice; bob] {[ "sid-1" := (alice_payload, 5000%Z) ]} true
          [] [] [] [] false 1000%Z.

Definition request (s : Session) : FastifyRequest :=
  mkRequest s "10.0.0.7" (Some "curl/8") None.

Definition bob_payload : SessionUser :=
  mkSessionUser "u2" "bob@hotel.com" FRONT_DESK "Bob" "Lee".

(** Alice after a demotion that her session payload has not seen. *)
Definition world_demoted : World :=
  mkWorld [mkUser "u1" "owner@hotel.com" "hash:pw" KITCHEN "Alice" "Ng" true None]
          {[ "sid-1" := (alice_payload, 5000%Z) ]} true [] [] [] [] false 1000%Z.

(** Alice's stored hash is damaged: the verifier rejects it. *)
Definition world_bad_hash : World :=
  mkWorld [mkUser "u1" "owner@hotel.com" PLACEHOLDER_HASH OWNER "Alice" "Ng"
             true None]
          ∅ true [] [] [] [] false 1000%Z.

(** The audit table refuses every insert. *)
Definition env_audit_down : Env :=
  mkEnv verify (fun p => p) (fun _ => None) (fun _ => None) git
        (fun _ => Some "connection refused").

End Sample.

(** The spec's scenario: the stored address is matched whatever the
    case and surrounding blanks of the one typed in. *)
Example login_normalises_email :
  fst (login Sample.env (mkLoginDto "  Owner@Hotel.com " "pw")
         (Sample.request (mkSession "sid-9" None)) Sample.world)
  = Ok (mkLoginResult Sample.alice_payload "sid-9").
Proof. vm_compute. reflexivity. Qed.

Example pull_sample :
  fst (pullWebsiteUpdate Sample.env "u1" None Sample.world)
  = Ok (mkUpdateResult true "Updating abc1234..def5678" "main" "def5678" 1000%Z).
Proof. vm_compute. reflexivity. Qed.

Example status_sample :
  fst (getWebsiteStatus Sample.env Sample.world)
  = Ok (mkStatus "main" "abc1234" (Some 1700000000000%Z) true).
Proof. vm_compute. reflexivity. Qed.

Example session_sample :
  fst (bind (incoming "sid-1" "10.0.0.7" None) getSessionUser Sample.world)
  = Ok (Some Sample.alice).
Proof. vm_compute. reflexivity. Qed.

(** ** Basic facts about the monad and the primitives *)

Lemma audit_log_run (env : Env) (input : AuditLogInput) (w : World) :
  audit_log env input w =
  (Ok tt,
   match auditLog_create env input with
   | None => set_auditRows (fun l => l ++ [input])
               (set_audited (fun l => l ++ [input]) w)
   | Some _ => set_audited (fun l => l ++ [input]) w
   end).
Proof.
  unfold audit_log, bind, try_catch, modify, throw, ret; simpl.
  destruct (auditLog_create env input); reflexivity.
Qed.

(** Whatever the table answers, an audit call adds exactly its input
    to the emitted events and leaves the rest of the world alone. *)
Lemma audit_log_frame (env : Env) (input : AuditLogInput) (w : World) :
  let w' := snd (audit_log env input w) in
  audited w' = audited w ++ [input] /\ users w' = users w
  /\ sessions w' = sessions w /\ redisUp w' = redisUp w
  /\ verified w' = verified w /\ spawned w' = spawned w
  /\ isUpdating w' = isUpdating w /\ now w' = now w.
Proof.
  rewrite audit_log_run; simpl.
  destruct (auditLog_create env input); simpl; repeat split; reflexivity.
Qed.

Lemma find_update_where_id (i : string) (f : User -> User) (l : list User) :
  (forall u, id (f u) = id u) ->
  find (fun u => (id u =? i)%string) (update_where_id i f l)
  = option_map f (find (fun u => (id u =? i)%string) l).
Proof.
  intros Hid. induction l as [|u l IH]; simpl; [reflexivity|].
  destruct (id u =? i)%string eqn:E; simpl.
  - rewrite Hid, E. reflexivity.
  - rewrite E. exact IH.
Qed.

Lemma row_deactivate (i : string) (w : World) :
  row i (deactivate i w) = option_map (with_is_active false) (row i w).
Proof.
  unfold row, deactivate; simpl.
  apply find_update_where_id. intros u; reflexivity.
Qed.

(** [getSessionUser] read off as a function of the payload and the row. *)
Lemma getSessionUser_run (req : FastifyRequest) (w : World) :
  getSessionUser req w =
  (Ok match session_user (session req) with
      | None => None
      | Some p =>
          if (su_id p =? "")%string then None
          else match row (su_id p) w with
               | Some u => if is_active u then Some u else None
               | None => None
               end
      end, w).
Proof.
  unfold getSessionUser, row.
  destruct (session_user (session req)) as [p|]; [|reflexivity].
  unfold Js.truthy. destruct (su_id p =? "")%string; simpl; [reflexivity|].
  unfold bind, findUnique_id, get, ret.
  destruct (find _ (users w)) as [u|]; [|reflexivity].
  destruct (is_active u); reflexivity.
Qed.

Lemma incoming_live (sid addr : string) (ua : option string)
    (p : SessionUser) (expires : Z) (w : World) :
  sessions w !! sid = Some (p, expires) -> (now w < expires)%Z ->
  incoming sid addr ua w =
  (Ok (mkRequest (mkSession sid (Some p)) addr ua None),
   set_sessions (<[sid := (p, (now w + SESSION_TTL)%Z)]>) w).
Proof.
  intros Hs Hlt. unfold incoming, bind, store_get, ret.
  rewrite Hs. apply Z.ltb_lt in Hlt. rewrite Hlt. reflexivity.
Qed.

Lemma incoming_absent (sid addr : string) (ua : option string) (w : World) :
  sessions w !! sid = None ->
  incoming sid addr ua w = (Ok (mkRequest (mkSession sid None) addr ua None), w).
Proof.
  intros Hs. unfold incoming, bind, store_get, ret. rewrite Hs. reflexivity.
Qed.

(** ** Session revalidation *)

(** C1.  Take any live session (present in the store, its expiry still
    ahead) whose payload names user [su_id p].  The request built from
    it makes [getSessionUser] look the row up by that id: the call never
    throws, and it returns a user exactly when the id is non-empty, the
    row exists and is active, the user returned being that row.  Once
    the user is deactivated the same call returns [None], although the
    session is still live in the store. *)
Theorem getSessionUser_revalidates
    (sid addr : string) (ua : option string) (p : SessionUser)
    (expires : Z) (w : World) :
  sessions w !! sid = Some (p, expires) ->
  (now w < expires)%Z ->
  let call := bind (incoming sid addr ua) getSessionUser in
  (exists r, fst (call w) = Ok r)
  /\ (forall usr,
        fst (call w) = Ok (Some usr) <->
        su_id p <> "" /\ row (su_id p) w = Some usr /\ is_active usr = true)
  /\ sessions (deactivate (su_id p) w) !! sid = Some (p, expires)
  /\ (now (deactivate (su_id p) w) < expires)%Z
  /\ fst (call (deactivate (su_id p) w)) = Ok None.
Proof.
  intros Hs Hlt call.
  assert (Hrun : forall v, sessions v !! sid = Some (p, expires) ->
                           (now v < expires)%Z ->
            fst (call v) =
            Ok (if (su_id p =? "")%string then None
                else match row (su_id p) v with
                     | Some u => if is_active u then Some u else None
                     | None => None
                     end)).
  { intros v Hv Hn. unfold call, bind.
    rewrite (incoming_live sid addr ua p expires v Hv Hn).
    rewrite getSessionUser_run. reflexivity. }
  split; [|split; [|split; [|split]]].
  - rewrite (Hrun w Hs Hlt). eexists; reflexivity.
  - intros usr. rewrite (Hrun w Hs Hlt).
    destruct (su_id p =? "")%string eqn:E.
    + apply String.eqb_eq in E. split; [discriminate|]. intros [Hne _]. contradiction.
    + apply String.eqb_neq in E.
      destruct (row (su_id p) w) as [u|].
      * destruct (is_active u) eqn:Ha; split.
        -- intros H; inversion H; subst. auto.
        -- intros (_ & H & _). inversion H; subst. reflexivity.
        -- discriminate.
        -- intros (_ & H & Hact). inversion H; subst. congruence.
      * split; [discriminate|]. intros (_ & H & _). discriminate.
  - exact Hs.
  - exact Hlt.
  - rewrite (Hrun (deactivate (su_id p) w) Hs Hlt).
    rewrite row_deactivate.
    destruct (su_id p =? "")%string; [reflexivity|].
    destruct (row (su_id p) w); reflexivity.
Qed.

Lemma getSessionUser_revalidates_witness :
  fst (bind (incoming "sid-1" "10.0.0.7" None) getSessionUser
         (deactivate "u1" Sample.world)) = Ok None.
Proof.
  apply (getSessionUser_revalidates "sid-1" "10.0.0.7" None
           Sample.alice_payload 5000%Z Sample.world).
  - vm_compute. reflexivity.
  - vm_compute. reflexivity.
Defined.

(** ** The updater: how its steps run *)

Lemma bind_run {A B} (m : M A) (k : A -> M B) (w : World) :
  bind m k w = match m w with
               | (Ok a, w') => k a w'
               | (Err e, w') => (Err e, w')
               end.
Proof. reflexivity. Qed.

Lemma validateMountPoint_run (env : Env) (mountPath : string) (w : World) :
  validateMountPoint env mountPath w =
  (let resolved := path_resolve env mountPath in
   if (resolved =? WEBSITE_MOUNT)%string
   then match fs_access env resolved with
        | Some _ => Err (InternalServerErrorException
                           "Website mount point is not accessible")
        | None =>
            match fs_access env (Js.path_join [resolved; ".git"]) with
            | Some _ => Err (BadRequestException
                               "Website directory is not a git repository")
            | None => Ok tt
            end
        end
   else Err (BadRequestException "Invalid mount path"), w).
Proof.
  unfold validateMountPoint. cbv zeta.
  destruct (path_resolve env mountPath =? WEBSITE_MOUNT)%string; simpl;
    [|reflexivity].
  unfold try_catch, bind, access, throw, ret.
  destruct (fs_access env (path_resolve env mountPath)); simpl; [reflexivity|].
  destruct (fs_access env (Js.path_join [path_resolve env mountPath; ".git"]));
    reflexivity.
Qed.

Lemma target_ok_true (env : Env) :
  target_ok env = true <->
  path_resolve env WEBSITE_MOUNT = WEBSITE_MOUNT
  /\ fs_access env WEBSITE_MOUNT = None
  /\ fs_access env (Js.path_join [WEBSITE_MOUNT; ".git"]) = None.
Proof.
  unfold target_ok. rewrite !andb_true_iff, !bool_decide_eq_true, String.eqb_eq.
  tauto.
Qed.

Lemma validate_ok (env : Env) (w : World) :
  target_ok env = true ->
  validateMountPoint env WEBSITE_MOUNT w = (Ok tt, w).
Proof.
  intros H. apply target_ok_true in H. destruct H as (Hr & Ha & Hg).
  rewrite validateMountPoint_run. cbv zeta. rewrite Hr, String.eqb_refl, Ha, Hg.
  reflexivity.
Qed.

Lemma validate_fails (env : Env) (w : World) :
  target_ok env = false ->
  exists e, validateMountPoint env WEBSITE_MOUNT w = (Err e, w).
Proof.
  intros H. rewrite validateMountPoint_run. cbv zeta.
  destruct (path_resolve env WEBSITE_MOUNT =? WEBSITE_MOUNT)%string eqn:Er;
    [|eexists; reflexivity].
  apply String.eqb_eq in Er.
  destruct (fs_access env (path_resolve env WEBSITE_MOUNT)) eqn:Ea;
    [eexists; reflexivity|].
  destruct (fs_access env (Js.path_join [path_resolve env WEBSITE_MOUNT; ".git"]))
    eqn:Eg; [eexists; reflexivity|].
  exfalso. rewrite Er in Ea, Eg.
  assert (target_ok env = true) by (apply target_ok_true; auto).
  congruence.
Qed.

Lemma exec_run (env : Env) (c : ExecCall) (w : World) :
  exec env c w =
  (match execAsync env (spawned w) c with
   | inr out => Ok out
   | inl e => Err (Error e)
   end, set_spawned (fun l => l ++ [c]) w).
Proof. reflexivity. Qed.

Lemma getGitCommit_run (env : Env) (dir : string) (w : World) :
  getGitCommit env dir w =
  (Ok (reported env (spawned w) (rev_parse_commit dir)),
   set_spawned (fun l => l ++ [rev_parse_commit dir]) w).
Proof.
  unfold getGitCommit, reported, bind, try_catch. rewrite exec_run.
  destruct (execAsync env (spawned w) (rev_parse_commit dir)); reflexivity.
Qed.

Lemma getGitBranch_run (env : Env) (dir : string) (w : World) :
  getGitBranch env dir w =
  (Ok (reported env (spawned w) (rev_parse_branch dir)),
   set_spawned (fun l => l ++ [rev_parse_branch dir]) w).
Proof.
  unfold getGitBranch, reported, bind, try_catch. rewrite exec_run.
  destruct (execAsync env (spawned w) (rev_parse_branch dir)); reflexivity.
Qed.

(** A failed validation ends the guarded block at once: the [catch]
    audits the failure and rethrows, the [finally] clears the flag. *)
Lemma pull_guarded_invalid (env : Env) (by_ : string) (ipa : option string)
    (w : World) (e : Exn) :
  validateMountPoint env WEBSITE_MOUNT w = (Err e, w) ->
  pull_guarded env by_ ipa w =
  (Err (InternalServerErrorException ("Update failed: " ++ message e)%string),
   set_isUpdating false
     (snd (audit_log env (update_failed_event (message e) by_ ipa) w))).
Proof.
  intros Hv. unfold pull_guarded, try_finally, try_catch, pull_body.
  rewrite bind_run, Hv. unfold pull_catch. rewrite bind_run.
  fold (update_failed_event (message e) by_ ipa).
  rewrite audit_log_run. reflexivity.
Qed.

(** ** Frame conditions: what a computation leaves alone *)

Lemma keeps_ret {A B} (f : World -> B) (a : A) : keeps f (ret a).
Proof. intros w; reflexivity. Qed.

Lemma keeps_throw {A B} (f : World -> B) (e : Exn) : keeps f (@throw A e).
Proof. intros w; reflexivity. Qed.

Lemma keeps_get {A B} (f : World -> B) (g : World -> A) : keeps f (get g).
Proof. intros w; reflexivity. Qed.

Lemma keeps_bind {A B C} (f : World -> C) (m : M A) (k : A -> M B) :
  keeps f m -> (forall a, keeps f (k a)) -> keeps f (bind m k).
Proof.
  intros Hm Hk w. unfold bind. specialize (Hm w).
  destruct (m w) as [[a|e] w']; simpl in *; [|exact Hm].
  rewrite Hk. exact Hm.
Qed.

Lemma keeps_try_catch {A C} (f : World -> C) (m : M A) (h : Exn -> M A) :
  keeps f m -> (forall e, keeps f (h e)) -> keeps f (try_catch m h).
Proof.
  intros Hm Hh w. unfold try_catch. specialize (Hm w).
  destruct (m w) as [[a|e] w']; simpl in *; [exact Hm|].
  rewrite Hh. exact Hm.
Qed.

Lemma keeps_flag_audit (env : Env) (i : AuditLogInput) :
  keeps isUpdating (audit_log env i).
Proof. intros w. apply (audit_log_frame env i w). Qed.

Lemma keeps_flag_exec (env : Env) (c : ExecCall) : keeps isUpdating (exec env c).
Proof. intros w; reflexivity. Qed.

Lemma keeps_flag_validate (env : Env) (p : string) :
  keeps isUpdating (validateMountPoint env p).
Proof. intros w. rewrite validateMountPoint_run. reflexivity. Qed.

Lemma keeps_flag_commit (env : Env) (d : string) :
  keeps isUpdating (getGitCommit env d).
Proof. intros w. rewrite getGitCommit_run. reflexivity. Qed.

Lemma keeps_flag_branch (env : Env) (d : string) :
  keeps isUpdating (getGitBranch env d).
Proof. intros w. rewrite getGitBranch_run. reflexivity. Qed.

Create HintDb frame.
#[local] Hint Resolve keeps_ret keeps_throw keeps_get keeps_flag_audit
  keeps_flag_exec keeps_flag_validate keeps_flag_commit keeps_flag_branch
  : frame.

Ltac frame :=
  repeat (first [ solve [auto with frame]
                | apply keeps_bind | apply keeps_try_catch
                | match goal with |- forall _, _ => intro end ]).

(** Inside [try]/[catch] nothing writes the flag: it is held from the
    mutex check to the [finally]. *)
Lemma critical_section_keeps_flag (env : Env) (by_ : string)
    (ipa : option string) :
  keeps isUpdating (try_catch (pull_body env by_ ipa) (pull_catch env by_ ipa)).
Proof. unfold pull_body, pull_catch. frame. Qed.

Lemma pull_guarded_outcome (env : Env) (by_ : string) (ipa : option string)
    (w : World) :
  (exists r, fst (pull_guarded env by_ ipa w) = Ok r)
  \/ (exists m, fst (pull_guarded env by_ ipa w)
                = Err (InternalServerErrorException m)).
Proof.
  unfold pull_guarded, try_finally, try_catch.
  destruct (pull_body env by_ ipa w) as [[r|e] w1].
  - left. eexists; reflexivity.
  - right. unfold pull_catch. rewrite bind_run, audit_log_run.
    eexists; reflexivity.
Qed.

Lemma pull_guarded_clears (env : Env) (by_ : string) (ipa : option string)
    (w : World) :
  isUpdating (snd (pull_guarded env by_ ipa w)) = false.
Proof.
  unfold pull_guarded, try_finally.
  destruct (try_catch _ _ w); reflexivity.
Qed.

Lemma pull_idle (env : Env) (by_ : string) (ipa : option string) (w : World) :
  isUpdating w = false ->
  pullWebsiteUpdate env by_ ipa w
  = pull_guarded env by_ ipa (set_isUpdating true w).
Proof.
  intros H. unfold pullWebsiteUpdate. rewrite bind_run.
  unfold pull_acquire. rewrite H. reflexivity.
Qed.

Lemma reported_unknown (env : Env) (before : list ExecCall) (c : ExecCall)
    (e : string) :
  execAsync env before c = inl e -> reported env before c = "unknown".
Proof. intros H. unfold reported. rewrite H. reflexivity. Qed.

(** ** The update trigger *)

(** C2.  The trigger is single-flight.  A call made while the flag is
    set fails at once with the in-progress error and returns the world
    as it found it, so no process was spawned.  A call made while the
    flag is clear holds the flag through its critical section and ends,
    whatever the outside answered (success, failed validation, failed
    or timed-out pull), with the flag clear; the next call then passes
    the mutex check and does not fail with the in-progress error. *)
Theorem pullWebsiteUpdate_single_flight
    (env : Env) (by_ : string) (ipa : option string) (w : World) :
  let busy := BadRequestException "An update is already in progress" in
  if isUpdating w
  then pullWebsiteUpdate env by_ ipa w = (Err busy, w)
       /\ spawned (snd (pullWebsiteUpdate env by_ ipa w)) = spawned w
  else
    let fin := snd (pullWebsiteUpdate env by_ ipa w) in
    isUpdating (snd (try_catch (pull_body env by_ ipa) (pull_catch env by_ ipa)
                       (set_isUpdating true w))) = true
    /\ isUpdating fin = false
    /\ pull_acquire fin = (Ok tt, set_isUpdating true fin)
    /\ (forall env' by' ipa',
          fst (pullWebsiteUpdate env' by' ipa' fin) <> Err busy).
Proof.
  intros busy. destruct (isUpdating w) eqn:Hflag.
  - unfold pullWebsiteUpdate. rewrite bind_run. unfold pull_acquire.
    rewrite Hflag. split; reflexivity.
  - intros fin.
    assert (Hfin : isUpdating fin = false).
    { unfold fin. rewrite (pull_idle env by_ ipa w Hflag).
      apply pull_guarded_clears. }
    split; [|split; [|split]].
    + rewrite critical_section_keeps_flag. reflexivity.
    + exact Hfin.
    + unfold pull_acquire. rewrite Hfin. reflexivity.
    + intros env' by' ipa'. rewrite (pull_idle env' by' ipa' fin Hfin).
      destruct (pull_guarded_outcome env' by' ipa' (set_isUpdating true fin))
        as [[r Hr]|[m Hm]]; [rewrite Hr|rewrite Hm]; discriminate.
Qed.

Lemma pullWebsiteUpdate_single_flight_witness :
  let mid := snd (pull_acquire Sample.world) in
  let fin := snd (pullWebsiteUpdate Sample.env "u1" None Sample.world) in
  isUpdating mid = true
  /\ pullWebsiteUpdate Sample.env "u2" None mid
     = (Err (BadRequestException "An update is already in progress"), mid)
  /\ isUpdating fin = false
  /\ pull_acquire fin = (Ok tt, set_isUpdating true fin).
Proof.
  intros mid fin.
  pose proof (pullWebsiteUpdate_single_flight Sample.env "u2" None mid) as Hbusy.
  pose proof (pullWebsiteUpdate_single_flight Sample.env "u1" None Sample.world)
    as Hidle.
  cbv zeta in Hbusy, Hidle.
  change (isUpdating mid) with true in Hbusy.
  change (isUpdating Sample.world) with false in Hidle.
  cbv iota in Hbusy, Hidle.
  split; [reflexivity|]. split; [exact (proj1 Hbusy)|].
  split; [exact (proj1 (proj2 Hidle))|]. exact (proj1 (proj2 (proj2 Hidle))).
Defined.

Example flag_cleared_after_timeout :
  isUpdating (snd (pullWebsiteUpdate Sample.env_git_down "u1" None Sample.world))
  = false.
Proof. vm_compute. reflexivity. Qed.

(** C3, as the code has it.  When the mount point fails validation
    (wrong resolved path, inaccessible directory or no [.git] entry) an
    update started with the flag clear fails, spawns no process at all
    and releases the flag.  The validation step itself reports a wrong
    path and a missing [.git] as a [BadRequestException], and a
    directory that cannot be accessed as an
    [InternalServerErrorException]. *)
Theorem pullWebsiteUpdate_invalid_target
    (env : Env) (by_ : string) (ipa : option string) (w : World) :
  isUpdating w = false ->
  target_ok env = false ->
  let out := pullWebsiteUpdate env by_ ipa w in
  (exists e, fst out = Err e)
  /\ spawned (snd out) = spawned w
  /\ isUpdating (snd out) = false
  /\ validateMountPoint env WEBSITE_MOUNT w =
     (if (path_resolve env WEBSITE_MOUNT =? WEBSITE_MOUNT)%string
      then match fs_access env WEBSITE_MOUNT with
           | Some _ => Err (InternalServerErrorException
                              "Website mount point is not accessible")
           | None => Err (BadRequestException
                            "Website directory is not a git repository")
           end
      else Err (BadRequestException "Invalid mount path"), w).
Proof.
  intros Hflag Hbad out. unfold out. rewrite (pull_idle env by_ ipa w Hflag).
  destruct (validate_fails env (set_isUpdating true w) Hbad) as [e He].
  rewrite (pull_guarded_invalid env by_ ipa _ e He).
  split; [eexists; reflexivity|].
  split; [simpl; apply (audit_log_frame env _ (set_isUpdating true w))|].
  split; [reflexivity|].
  rewrite validateMountPoint_run. cbv zeta.
  destruct (path_resolve env WEBSITE_MOUNT =? WEBSITE_MOUNT)%string eqn:Er;
    [|reflexivity].
  apply String.eqb_eq in Er. rewrite Er.
  destruct (fs_access env WEBSITE_MOUNT) eqn:Ea; [reflexivity|].
  destruct (fs_access env (Js.path_join [WEBSITE_MOUNT; ".git"])) eqn:Eg;
    [reflexivity|].
  exfalso. assert (target_ok env = true) by (apply target_ok_true; auto).
  congruence.
Qed.

Lemma pullWebsiteUpdate_invalid_target_witness :
  (exists e, fst (pullWebsiteUpdate Sample.env_no_git "u1" None Sample.world)
             = Err e)
  /\ spawned (snd (pullWebsiteUpdate Sample.env_no_git "u1" None Sample.world))
     = spawned Sample.world.
Proof.
  pose proof (pullWebsiteUpdate_invalid_target Sample.env_no_git "u1" None
                Sample.world eq_refl eq_refl) as H.
  split; [exact (proj1 H) | exact (proj1 (proj2 H))].
Defined.

(** C3 as written fails on a missing mount point: the update does not
    end in a [BadRequestException], and neither does the validation
    step on its own. *)
Lemma pullWebsiteUpdate_missing_mount_not_bad_request :
  isUpdating Sample.world = false
  /\ fs_access Sample.env_no_mount WEBSITE_MOUNT
     = Some "ENOENT: no such file or directory"
  /\ fst (pullWebsiteUpdate Sample.env_no_mount "u1" None Sample.world)
     = Err (InternalServerErrorException
              "Update failed: Website mount point is not accessible")
  /\ throwsBadRequest
       (fst (pullWebsiteUpdate Sample.env_no_mount "u1" None Sample.world))
     = false
  /\ throwsBadRequest
       (fst (validateMountPoint Sample.env_no_mount WEBSITE_MOUNT Sample.world))
     = false.
Proof. vm_compute. repeat split; reflexivity. Qed.

(** C8, as the code has it.  Take an update that starts with the flag
    clear on a valid mount point.  Its fate is decided by the pull
    alone.  If the pull process fails (or is killed at the timeout)
    with message [e], a [WEBSITE_UPDATE_FAILED] event carrying [e] is
    emitted and the call throws [InternalServerErrorException] with
    that message.  If the pull succeeds, a [WEBSITE_UPDATE] event with
    the revisions before and after, the branch and the captured output
    is emitted and the same values are returned.  A revision or branch
    query that fails does not fail the update: [reported] records the
    value as [unknown]. *)
Theorem pullWebsiteUpdate_audit
    (env : Env) (by_ : string) (ipa : option string) (w : World) :
  isUpdating w = false ->
  target_ok env = true ->
  let out := pullWebsiteUpdate env by_ ipa w in
  let t1 := spawned w ++ [rev_parse_commit WEBSITE_MOUNT] in
  let before := reported env (spawned w) (rev_parse_commit WEBSITE_MOUNT) in
  match execAsync env t1 git_pull with
  | inl e =>
      fst out = Err (InternalServerErrorException ("Update failed: " ++ e)%string)
      /\ audited (snd out) = audited w ++ [update_failed_event e by_ ipa]
  | inr po =>
      let t2 := t1 ++ [git_pull] in
      let after := reported env t2 (rev_parse_commit WEBSITE_MOUNT) in
      let br := reported env (t2 ++ [rev_parse_commit WEBSITE_MOUNT])
                         (rev_parse_branch WEBSITE_MOUNT) in
      fst out = Ok (mkUpdateResult true (captured po) br after (now w))
      /\ audited (snd out)
         = audited w ++ [update_event before after br (captured po) by_ ipa]
  end.
Proof.
  intros Hflag Hok out t1 before. unfold out.
  rewrite (pull_idle env by_ ipa w Hflag).
  unfold pull_guarded, try_finally, try_catch, pull_body.
  rewrite bind_run, (validate_ok env _ Hok).
  rewrite bind_run, getGitCommit_run.
  rewrite bind_run, exec_run. simpl spawned. fold t1.
  destruct (execAsync env t1 git_pull) as [e|po].
  - unfold pull_catch. rewrite bind_run, audit_log_run. simpl message.
    fold (update_failed_event e by_ ipa).
    destruct (auditLog_create env _); split; reflexivity.
  - cbv zeta. rewrite bind_run, getGitCommit_run.
    rewrite bind_run, getGitBranch_run.
    rewrite bind_run. unfold get. cbv beta iota.
    rewrite bind_run, audit_log_run.
    fold (captured po). fold before.
    destruct (auditLog_create env _); split; reflexivity.
Qed.

Lemma pullWebsiteUpdate_audit_witness :
  fst (pullWebsiteUpdate Sample.env_git_down "u1" (Some "10.0.0.7") Sample.world)
  = Err (InternalServerErrorException "Update failed: Command failed")
  /\ audited (snd (pullWebsiteUpdate Sample.env_git_down "u1" (Some "10.0.0.7")
                     Sample.world))
     = [update_failed_event "Command failed" "u1" (Some "10.0.0.7")].
Proof.
  exact (pullWebsiteUpdate_audit Sample.env_git_down "u1" (Some "10.0.0.7")
           Sample.world eq_refl eq_refl).
Defined.

(** C8 as written fails when the revision queries of steps 2 and 4
    fail: the update still succeeds, a [WEBSITE_UPDATE] event is
    emitted with the revisions recorded as [unknown], and no
    [WEBSITE_UPDATE_FAILED] event appears. *)
Lemma pullWebsiteUpdate_rev_parse_failure_swallowed :
  execAsync Sample.env_rev_parse_fails [] (rev_parse_commit WEBSITE_MOUNT)
  = inl "Command failed: git rev-parse"
  /\ fst (pullWebsiteUpdate Sample.env_rev_parse_fails "u1" None Sample.world)
     = Ok (mkUpdateResult true "Already up to date." "unknown" "unknown" 1000%Z)
  /\ audited (snd (pullWebsiteUpdate Sample.env_rev_parse_fails "u1" None
                     Sample.world))
     = [update_event "unknown" "unknown" "unknown" "Already up to date."
          "u1" None]
  /\ existsb (fun a => (action a =? "WEBSITE_UPDATE_FAILED")%string)
       (audited (snd (pullWebsiteUpdate Sample.env_rev_parse_fails "u1" None
                        Sample.world)))
     = false.
Proof. vm_compute. repeat split; reflexivity. Qed.

(** C10.  When the mount point is valid and the [git status] process
    fails, [getWebsiteStatus] does not throw: it returns a status whose
    [isClean] is true. *)
Theorem getWebsiteStatus_failure_reads_clean
    (env : Env) (w : World) (e : string) :
  target_ok env = true ->
  execAsync env
    (spawned w ++ [rev_parse_branch WEBSITE_MOUNT; rev_parse_commit WEBSITE_MOUNT])
    git_status = inl e ->
  exists s, fst (getWebsiteStatus env w) = Ok s /\ isClean s = true.
Proof.
  intros Hok Hfail. unfold getWebsiteStatus.
  rewrite bind_run, (validate_ok env _ Hok).
  rewrite bind_run, getGitBranch_run.
  rewrite bind_run, getGitCommit_run.
  rewrite bind_run. unfold try_catch at 1. rewrite bind_run, exec_run.
  simpl spawned. rewrite <- app_assoc. simpl app. rewrite Hfail.
  eexists. split; reflexivity.
Qed.

Lemma getWebsiteStatus_failure_reads_clean_witness :
  execAsync Sample.env_git_down
    (spawned Sample.world
     ++ [rev_parse_branch WEBSITE_MOUNT; rev_parse_commit WEBSITE_MOUNT])
    git_status = inl "Command failed"
  /\ exists s, fst (getWebsiteStatus Sample.env_git_down Sample.world) = Ok s
               /\ isClean s = true.
Proof.
  split; [reflexivity|].
  apply (getWebsiteStatus_failure_reads_clean Sample.env_git_down Sample.world
           "Command failed"); reflexivity.
Defined.

(** ** Login *)

Lemma argon2_verify_run (env : Env) (hash password : string) (w : World) :
  argon2_verify_m env hash password w =
  (match argon2_verify env hash password with
   | inr b => Ok b
   | inl e => Err (Error e)
   end, set_verified (fun l => l ++ [(hash, password)]) w).
Proof.
  unfold argon2_verify_m, bind, modify; simpl.
  destruct (argon2_verify env hash password); reflexivity.
Qed.

Lemma login_absent (env : Env) (dto : LoginDto) (req : FastifyRequest)
    (w : World) :
  account (dto_email dto) w = None ->
  login env dto req w =
  (Err (UnauthorizedException "Invalid credentials"),
   set_verified (fun l => l ++ [(PLACEHOLDER_HASH, dto_password dto)]) w).
Proof.
  intros Hacc. destruct dto as [e pw]; simpl in *. unfold login.
  cbv beta iota.
  rewrite bind_run. unfold findUnique_email, get. fold (account e w).
  rewrite Hacc. rewrite bind_run. unfold try_catch. rewrite bind_run.
  rewrite argon2_verify_run.
  destruct (argon2_verify env PLACEHOLDER_HASH pw); reflexivity.
Qed.

Lemma login_inactive (env : Env) (dto : LoginDto) (req : FastifyRequest)
    (w : World) (u : User) :
  account (dto_email dto) w = Some u -> is_active u = false ->
  login env dto req w =
  (Err (ForbiddenException "Account has been deactivated"), w).
Proof.
  intros Hacc Hact. destruct dto as [e pw]; simpl in *. unfold login.
  cbv beta iota.
  rewrite bind_run. unfold findUnique_email, get. fold (account e w).
  rewrite Hacc, Hact. reflexivity.
Qed.

Lemma login_wrong_password (env : Env) (dto : LoginDto) (req : FastifyRequest)
    (w : World) (u : User) :
  account (dto_email dto) w = Some u -> is_active u = true ->
  argon2_verify env (password_hash u) (dto_password dto) = inr false ->
  login env dto req w =
  (Err (UnauthorizedException "Invalid credentials"),
   snd (audit_log env (login_failed_event u req)
          (set_verified
             (fun l => l ++ [(password_hash u, dto_password dto)]) w))).
Proof.
  intros Hacc Hact Hver. destruct dto as [e pw]; simpl in *. unfold login.
  cbv beta iota.
  rewrite bind_run. unfold findUnique_email, get. fold (account e w).
  rewrite Hacc, Hact. cbn [negb].
  rewrite bind_run, argon2_verify_run, Hver. cbn [negb].
  rewrite bind_run. fold (login_failed_event u req).
  rewrite audit_log_run. reflexivity.
Qed.

(** C4.  A login whose address matches no user runs exactly one hash
    verification, against the fixed placeholder hash, and then throws
    the invalid-credentials error.  A login with a wrong password for
    an existing active user also runs exactly one verification, against
    the stored hash, and throws the same error: both paths add one
    entry to the verification trace. *)
Theorem login_one_verification_either_way
    (env : Env) (dtoA dtoW : LoginDto) (reqA reqW : FastifyRequest)
    (wA wW : World) (u : User) :
  account (dto_email dtoA) wA = None ->
  account (dto_email dtoW) wW = Some u ->
  is_active u = true ->
  argon2_verify env (password_hash u) (dto_password dtoW) = inr false ->
  let absent := login env dtoA reqA wA in
  let wrong := login env dtoW reqW wW in
  fst absent = Err (UnauthorizedException "Invalid credentials")
  /\ verified (snd absent)
     = verified wA ++ [(PLACEHOLDER_HASH, dto_password dtoA)]
  /\ fst wrong = fst absent
  /\ verified (snd wrong)
     = verified wW ++ [(password_hash u, dto_password dtoW)]
  /\ length (verified (snd absent)) = S (length (verified wA))
  /\ length (verified (snd wrong)) = S (length (verified wW)).
Proof.
  intros HA HW Hact Hver absent wrong. unfold absent, wrong.
  rewrite (login_absent env dtoA reqA wA HA).
  rewrite (login_wrong_password env dtoW reqW wW u HW Hact Hver).
  pose proof (audit_log_frame env (login_failed_event u reqW)
                (set_verified
                   (fun l => l ++ [(password_hash u, dto_password dtoW)]) wW))
    as Hfr.
  cbv zeta in Hfr. destruct Hfr as (_ & _ & _ & _ & Hv & _).
  cbn [fst snd]. rewrite Hv. simpl verified.
  rewrite !length_app. simpl length.
  repeat split; auto; lia.
Qed.

Lemma login_one_verification_either_way_witness :
  let absent := login Sample.env (mkLoginDto "nobody@hotel.com" "pw")
                  (Sample.request (mkSession "s" None)) Sample.world in
  let wrong := login Sample.env (mkLoginDto "owner@hotel.com" "guess")
                 (Sample.request (mkSession "s" None)) Sample.world in
  fst absent = Err (UnauthorizedException "Invalid credentials")
  /\ verified (snd absent) = [(PLACEHOLDER_HASH, "pw")]
  /\ fst wrong = fst absent
  /\ verified (snd wrong) = [("hash:pw", "guess")]
  /\ length (verified (snd absent)) = 1%nat
  /\ length (verified (snd wrong)) = 1%nat.
Proof.
  exact (login_one_verification_either_way Sample.env
           (mkLoginDto "nobody@hotel.com" "pw")
           (mkLoginDto "owner@hotel.com" "guess")
           (Sample.request (mkSession "s" None))
           (Sample.request (mkSession "s" None))
           Sample.world Sample.world Sample.alice
           eq_refl eq_refl eq_refl eq_refl).
Defined.

(** C5.  A login against an existing but inactive user throws
    [ForbiddenException] (account deactivated), which is not the
    invalid-credentials error, and leaves the world untouched: no hash
    was verified and nothing was audited.  A login against an existing
    active user with a wrong password emits a [USER_LOGIN_FAILED]
    event for that user and throws the invalid-credentials error. *)
Theorem login_deactivated_or_wrong_password
    (env : Env) (dtoI dtoW : LoginDto) (reqI reqW : FastifyRequest)
    (wI wW : World) (uI uW : User) :
  account (dto_email dtoI) wI = Some uI ->
  is_active uI = false ->
  account (dto_email dtoW) wW = Some uW ->
  is_active uW = true ->
  argon2_verify env (password_hash uW) (dto_password dtoW) = inr false ->
  login env dtoI reqI wI
  = (Err (ForbiddenException "Account has been deactivated"), wI)
  /\ fst (login env dtoI reqI wI)
     <> Err (UnauthorizedException "Invalid credentials")
  /\ verified (snd (login env dtoI reqI wI)) = verified wI
  /\ fst (login env dtoW reqW wW)
     = Err (UnauthorizedException "Invalid credentials")
  /\ audited (snd (login env dtoW reqW wW))
     = audited wW ++ [login_failed_event uW reqW].
Proof.
  intros HI HIa HW HWa Hver.
  rewrite (login_inactive env dtoI reqI wI uI HI HIa).
  rewrite (login_wrong_password env dtoW reqW wW uW HW HWa Hver).
  cbn [fst snd].
  split; [reflexivity|]. split; [discriminate|]. split; [reflexivity|].
  split; [reflexivity|].
  pose proof (audit_log_frame env (login_failed_event uW reqW)
                (set_verified
                   (fun l => l ++ [(password_hash uW, dto_password dtoW)]) wW))
    as Hfr.
  cbv zeta in Hfr. rewrite (proj1 Hfr). reflexivity.
Qed.

Lemma login_deactivated_or_wrong_password_witness :
  fst (login Sample.env (mkLoginDto "Bob@hotel.com" "secret")
         (Sample.request (mkSession "s" None)) Sample.world)
  = Err (ForbiddenException "Account has been deactivated")
  /\ audited (snd (login Sample.env (mkLoginDto "owner@hotel.com" "guess")
                     (Sample.request (mkSession "s" None)) Sample.world))
     = [login_failed_event Sample.alice (Sample.request (mkSession "s" None))].
Proof.
  pose proof (login_deactivated_or_wrong_password Sample.env
                (mkLoginDto "Bob@hotel.com" "secret")
                (mkLoginDto "owner@hotel.com" "guess")
                (Sample.request (mkSession "s" None))
                (Sample.request (mkSession "s" None))
                Sample.world Sample.world Sample.bob Sample.alice
                eq_refl eq_refl eq_refl eq_refl eq_refl) as H.
  split.
  - rewrite (proj1 H). reflexivity.
  - exact (proj2 (proj2 (proj2 (proj2 H)))).
Defined.

(** ** Logout and revocation *)

Lemma logout_run (env : Env) (req : FastifyRequest) (w : World) :
  redisUp w = true ->
  logout env req w =
  (Ok tt,
   match session_user (session req) with
   | Some su => snd (audit_log env (logout_event su req)
                       (set_sessions (delete (sessionId (session req))) w))
   | None => set_sessions (delete (sessionId (session req))) w
   end).
Proof.
  intros Hup. unfold logout. rewrite bind_run. unfold session_destroy.
  rewrite Hup.
  destruct (session_user (session req)) as [su|]; [|reflexivity].
  fold (logout_event su req). rewrite audit_log_run. reflexivity.
Qed.

(** When the store cannot be reached the error of [destroy] is thrown
    and nothing is audited. *)
Lemma logout_store_down (env : Env) (req : FastifyRequest) (w : World) :
  redisUp w = false ->
  logout env req w = (Err (Error "session store unavailable"), w).
Proof.
  intros Hdown. unfold logout. rewrite bind_run. unfold session_destroy.
  rewrite Hdown. reflexivity.
Qed.

(** C6.  With the store reachable, [logout] succeeds whether or not the
    session holds a payload and removes the session's key.  A request
    that presents the same session id afterwards gets [None] from
    [getSessionUser], and a second [logout] with that id succeeds too
    and changes nothing.  A [USER_LOGOUT] event is emitted exactly when
    the session held a payload. *)
Theorem logout_idempotent (env : Env) (req : FastifyRequest) (w : World) :
  redisUp w = true ->
  let sid := sessionId (session req) in
  let w1 := snd (logout env req w) in
  fst (logout env req w) = Ok tt
  /\ sessions w1 = delete sid (sessions w)
  /\ (forall addr ua,
        fst (bind (incoming sid addr ua) getSessionUser w1) = Ok None)
  /\ (forall addr ua,
        bind (incoming sid addr ua) (logout env) w1 = (Ok tt, w1))
  /\ audited w1 = audited w ++ match session_user (session req) with
                               | Some su => [logout_event su req]
                               | None => []
                               end.
Proof.
  intros Hup sid w1.
  assert (Hw1 : sessions w1 = delete sid (sessions w) /\ redisUp w1 = true
                /\ audited w1 = audited w ++ match session_user (session req) with
                                             | Some su => [logout_event su req]
                                             | None => []
                                             end).
  { unfold w1. rewrite (logout_run env req w Hup). cbn [snd].
    destruct (session_user (session req)) as [su|].
    - pose proof (audit_log_frame env (logout_event su req)
                    (set_sessions (delete (sessionId (session req))) w)) as Hfr.
      cbv zeta in Hfr. destruct Hfr as (Ha & _ & Hs & Hr & _).
      rewrite Ha, Hs, Hr. auto.
    - simpl. rewrite app_nil_r. auto. }
  destruct Hw1 as (Hs1 & Hup1 & Ha1).
  assert (Hgone : sessions w1 !! sid = None)
    by (rewrite Hs1; apply lookup_delete_eq).
  split; [rewrite (logout_run env req w Hup); reflexivity|].
  split; [exact Hs1|].
  split; [|split; [|exact Ha1]].
  - intros addr ua. rewrite bind_run, (incoming_absent sid addr ua w1 Hgone).
    rewrite getSessionUser_run. reflexivity.
  - intros addr ua. rewrite bind_run, (incoming_absent sid addr ua w1 Hgone).
    rewrite (logout_run env _ w1 Hup1). cbn [session session_user sessionId].
    f_equal. destruct w1 as [us ss up au ar ve sp fl t]. unfold set_sessions.
    cbn in *. rewrite (delete_id ss sid Hgone). reflexivity.
Qed.

Lemma logout_idempotent_witness :
  let req := Sample.request (mkSession "sid-1" (Some Sample.alice_payload)) in
  let w1 := snd (logout Sample.env req Sample.world) in
  fst (logout Sample.env req Sample.world) = Ok tt
  /\ fst (bind (incoming "sid-1" "10.0.0.7" None) getSessionUser w1) = Ok None
  /\ bind (incoming "sid-1" "10.0.0.7" None) (logout Sample.env) w1 = (Ok tt, w1)
  /\ audited w1 = [logout_event Sample.alice_payload req].
Proof.
  intros req w1.
  pose proof (logout_idempotent Sample.env req Sample.world eq_refl) as H.
  cbv zeta in H. destruct H as (H1 & _ & H3 & H4 & H5).
  split; [exact H1|]. split; [exact (H3 "10.0.0.7" None)|].
  split; [exact (H4 "10.0.0.7" None)|]. exact H5.
Defined.

(** The HTTP route is stricter than the service: [POST /auth/logout]
    sits behind [AuthGuard], so a request whose session holds no
    payload is turned away before [logout] runs. *)
Lemma AuthController_logout_guarded (env : Env) (req : FastifyRequest)
    (w : World) :
  session_user (session req) = None ->
  AuthController_logout env req w
  = (Err (UnauthorizedException "Session expired or invalid"), w).
Proof.
  intros Hnone. unfold AuthController_logout, AuthGuard_canActivate.
  rewrite !bind_run, getSessionUser_run, Hnone. reflexivity.
Qed.

(** C9.  [revokeAllSessionsForUser] always succeeds and its effect is
    the audit record alone: the [USER_SESSIONS_REVOKED] event is added
    to the emitted events (and to the table when the insert works).
    The session store, the user table and every other part of the
    world are as before, and the call does not read them: changing the
    store or the table first gives the same outcome. *)
Theorem revokeAllSessionsForUser_only_audits
    (env : Env) (targetUserId performedById : string)
    (ipAddress : option string) (w : World) :
  let ev := revoked_event targetUserId performedById ipAddress in
  let out := revokeAllSessionsForUser env targetUserId performedById ipAddress w in
  fst out = Ok tt
  /\ audited (snd out) = audited w ++ [ev]
  /\ (auditRows (snd out) = auditRows w ++ [ev]
      \/ auditRows (snd out) = auditRows w)
  /\ sessions (snd out) = sessions w
  /\ users (snd out) = users w
  /\ redisUp (snd out) = redisUp w
  /\ verified (snd out) = verified w
  /\ spawned (snd out) = spawned w
  /\ isUpdating (snd out) = isUpdating w
  /\ now (snd out) = now w
  /\ (forall f,
        revokeAllSessionsForUser env targetUserId performedById ipAddress
          (set_sessions f w) = (fst out, set_sessions f (snd out)))
  /\ (forall g,
        revokeAllSessionsForUser env targetUserId performedById ipAddress
          (set_users g w) = (fst out, set_users g (snd out))).
Proof.
  intros ev out. unfold out, revokeAllSessionsForUser.
  fold (revoked_event targetUserId performedById ipAddress). fold ev.
  rewrite audit_log_run. cbn [fst snd].
  repeat split;
    try (intros f; rewrite audit_log_run);
    destruct (auditLog_create env ev); simpl; auto.
Qed.

Example revoke_leaves_session_in_store :
  sessions (snd (revokeAllSessionsForUser Sample.env "u1" "u2" None Sample.world))
    !! "sid-1" = Some (Sample.alice_payload, 5000%Z).
Proof. vm_compute. reflexivity. Qed.

(** ** The role gate *)

Lemma Role_eqb_eq (a b : Role) : Role_eqb a b = true <-> a = b.
Proof. destruct a, b; simpl; split; intros H; congruence. Qed.

Lemma existsb_Role (r : Role) (roles : list Role) :
  existsb (Role_eqb r) roles = true <-> In r roles.
Proof.
  rewrite existsb_exists. split.
  - intros (x & Hin & Heq). apply Role_eqb_eq in Heq. subst. exact Hin.
  - intros Hin. exists r. split; [exact Hin | apply Role_eqb_eq; reflexivity].
Qed.

(** C7.  For a caller that [AuthGuard] has attached to the request: a
    route with no role list, or an empty one, lets the caller through;
    a route with a non-empty list lets the caller through exactly when
    the caller's role occurs in the list, and otherwise throws
    [ForbiddenException] with the required roles spelled out.  The test
    is membership only: a route that lists a single role turns away
    every caller holding another role. *)
Theorem RolesGuard_membership
    (req : FastifyRequest) (u : User) (roles : list Role) :
  req_user req = Some u ->
  RolesGuard_canActivate None req = Ok true
  /\ RolesGuard_canActivate (Some []) req = Ok true
  /\ (roles <> [] ->
      (RolesGuard_canActivate (Some roles) req = Ok true <-> In (role u) roles)
      /\ (~ In (role u) roles ->
          RolesGuard_canActivate (Some roles) req = Err (access_denied roles)))
  /\ (forall r, r <> role u ->
        RolesGuard_canActivate (Some [r]) req = Err (access_denied [r])).
Proof.
  intros Hu.
  assert (Hne : forall rs, rs <> [] ->
            RolesGuard_canActivate (Some rs) req
            = if existsb (Role_eqb (role u)) rs then Ok true
              else Err (access_denied rs)).
  { intros rs Hrs. unfold RolesGuard_canActivate. rewrite Hu.
    destruct rs as [|r rs]; [contradiction|]. simpl length. cbn [Nat.eqb].
    destruct (existsb (Role_eqb (role u)) (r :: rs)); reflexivity. }
  split; [reflexivity|]. split; [reflexivity|]. split.
  - intros Hroles. rewrite (Hne roles Hroles).
    destruct (existsb (Role_eqb (role u)) roles) eqn:E.
    + apply existsb_Role in E. split; [tauto|]. intros Hn. contradiction.
    + assert (~ In (role u) roles) as Hn.
      { intros Hin. apply existsb_Role in Hin. congruence. }
      split; [|reflexivity]. split; [discriminate|contradiction].
  - intros r Hr. rewrite (Hne [r]) by discriminate.
    destruct (existsb (Role_eqb (role u)) [r]) eqn:E; [|reflexivity].
    apply existsb_Role in E. destruct E as [E|[]]. congruence.
Qed.

Lemma RolesGuard_membership_witness :
  let caller r := mkRequest (mkSession "s" None) "10.0.0.7" None
                    (Some (mkUser "u" "e" "h" r "F" "L" true None)) in
  RolesGuard_canActivate (Some [MANAGER]) (caller FRONT_DESK)
  = Err (ForbiddenException "Access denied. Required roles: MANAGER")
  /\ RolesGuard_canActivate (Some [MANAGER]) (caller OWNER)
     = Err (ForbiddenException "Access denied. Required roles: MANAGER")
  /\ RolesGuard_canActivate (Some [OWNER; MANAGER]) (caller MANAGER) = Ok true
  /\ RolesGuard_canActivate (Some []) (caller KITCHEN) = Ok true.
Proof.
  intros caller.
  pose proof (RolesGuard_membership (caller FRONT_DESK) _ [MANAGER] eq_refl)
    as (_ & _ & _ & Hdesk).
  pose proof (RolesGuard_membership (caller OWNER) _ [MANAGER] eq_refl)
    as (_ & _ & _ & Howner).
  pose proof (RolesGuard_membership (caller MANAGER) _ [OWNER; MANAGER] eq_refl)
    as (_ & _ & Hin & _).
  pose proof (RolesGuard_membership (caller KITCHEN) _ [] eq_refl)
    as (_ & Hempty & _).
  split; [exact (Hdesk MANAGER ltac:(discriminate))|].
  split; [exact (Howner MANAGER ltac:(discriminate))|].
  split; [|exact Hempty].
  apply (proj1 (Hin ltac:(discriminate))). simpl. auto.
Defined.

(** ** More on login *)

Lemma login_found (env : Env) (dto : LoginDto) (req : FastifyRequest)
    (w : World) (u : User) :
  account (dto_email dto) w = Some u -> is_active u = true ->
  login env dto req w =
  match argon2_verify env (password_hash u) (dto_password dto) with
  | inl e =>
      (Err (Error e),
       set_verified (fun l => l ++ [(password_hash u, dto_password dto)]) w)
  | inr false =>
      (Err (UnauthorizedException "Invalid credentials"),
       snd (audit_log env (login_failed_event u req)
              (set_verified
                 (fun l => l ++ [(password_hash u, dto_password dto)]) w)))
  | inr true =>
      let w1 := set_verified
                  (fun l => l ++ [(password_hash u, dto_password dto)]) w in
      if redisUp w
      then (Ok (mkLoginResult (payload_of u) (sessionId (session req))),
            snd (audit_log env (login_event u req)
                   (set_users
                      (update_where_id (id u) (with_last_login (now w)))
                      (set_sessions
                         (<[sessionId (session req)
                            := (payload_of u, (now w + SESSION_TTL)%Z)]>) w1))))
      else (Err (Error "session store unavailable"), w1)
  end.
Proof.
  intros Hacc Hact. destruct dto as [e pw]; simpl in *. unfold login.
  cbv beta iota.
  rewrite bind_run. unfold findUnique_email, get. fold (account e w).
  rewrite Hacc, Hact. cbn [negb].
  rewrite bind_run, argon2_verify_run.
  destruct (argon2_verify env (password_hash u) pw) as [err|[|]];
    cbn [negb]; [reflexivity| |].
  - fold (payload_of u). rewrite bind_run. unfold session_save.
    cbn [redisUp set_verified]. destruct (redisUp w); [|reflexivity].
    rewrite bind_run. unfold touch_last_login, modify.
    rewrite bind_run. fold (login_event u req). rewrite !audit_log_run.
    reflexivity.
  - rewrite bind_run. fold (login_failed_event u req).
    rewrite !audit_log_run. reflexivity.
Qed.

(** X1.  The success path of [login]: for an active account, a password
    the verifier accepts and a reachable store, the call returns the
    payload projected from the row together with the session id the
    request already carried.  The payload is stored under that id with
    a full TTL and no other session is touched; the row's
    [last_login_at] is set to the current instant; a [USER_LOGIN] event
    is emitted; exactly one hash verification was run. *)
Theorem login_success
    (env : Env) (dto : LoginDto) (req : FastifyRequest) (w : World) (u : User) :
  account (dto_email dto) w = Some u ->
  is_active u = true ->
  argon2_verify env (password_hash u) (dto_password dto) = inr true ->
  redisUp w = true ->
  let out := login env dto req w in
  let sid := sessionId (session req) in
  fst out = Ok (mkLoginResult (payload_of u) sid)
  /\ sessions (snd out) !! sid = Some (payload_of u, (now w + SESSION_TTL)%Z)
  /\ (forall other, other <> sid ->
        sessions (snd out) !! other = sessions w !! other)
  /\ users (snd out)
     = update_where_id (id u) (with_last_login (now w)) (users w)
  /\ audited (snd out) = audited w ++ [login_event u req]
  /\ verified (snd out) = verified w ++ [(password_hash u, dto_password dto)].
Proof.
  intros Hacc Hact Hver Hup out sid. unfold out.
  rewrite (login_found env dto req w u Hacc Hact), Hver. cbv zeta.
  rewrite Hup. cbn [fst snd].
  match goal with |- context [audit_log env ?ev ?v] =>
    pose proof (audit_log_frame env ev v) as Hfr end.
  cbv zeta in Hfr. destruct Hfr as (Ha & Hu & Hs & _ & Hv & _).
  rewrite Ha, Hu, Hs, Hv. cbn [sessions users audited verified set_users
                               set_sessions set_verified].
  split; [reflexivity|]. split; [apply lookup_insert_eq|].
  split; [|auto].
  intros other Hne. apply lookup_insert_ne. intros E. apply Hne. symmetry.
  exact E.
Qed.

Lemma login_success_witness :
  let req := Sample.request (mkSession "sid-9" None) in
  let out := login Sample.env (mkLoginDto "owner@hotel.com" "pw") req
               Sample.world in
  fst out = Ok (mkLoginResult Sample.alice_payload "sid-9")
  /\ sessions (snd out) !! "sid-9"
     = Some (Sample.alice_payload, 28801000%Z)
  /\ audited (snd out) = [login_event Sample.alice req].
Proof.
  intros req out.
  pose proof (login_success Sample.env (mkLoginDto "owner@hotel.com" "pw") req
                Sample.world Sample.alice eq_refl eq_refl eq_refl eq_refl) as H.
  cbv zeta in H. destruct H as (H1 & H2 & _ & _ & H5 & _).
  split; [exact H1|]. split; [exact H2|exact H5].
Defined.

Lemma SESSION_TTL_pos : (0 < SESSION_TTL)%Z.
Proof. reflexivity. Qed.

(** X2.  Login and session read compose.  After a successful login, a
    request that presents the same session id is given the user back by
    [getSessionUser]: the row itself, now carrying the login instant.
    This needs the row's id to be non-empty and to be the key under
    which the table finds that row. *)
Theorem login_then_getSessionUser
    (env : Env) (dto : LoginDto) (req : FastifyRequest) (w : World) (u : User)
    (addr : string) (ua : option string) :
  account (dto_email dto) w = Some u ->
  is_active u = true ->
  argon2_verify env (password_hash u) (dto_password dto) = inr true ->
  redisUp w = true ->
  id u <> "" ->
  row (id u) w = Some u ->
  fst (bind (incoming (sessionId (session req)) addr ua) getSessionUser
         (snd (login env dto req w)))
  = Ok (Some (with_last_login (now w) u)).
Proof.
  intros Hacc Hact Hver Hup Hid Hrow.
  rewrite (login_found env dto req w u Hacc Hact), Hver. cbv zeta.
  rewrite Hup. cbn [snd].
  match goal with |- context [audit_log env ?ev ?v] =>
    pose proof (audit_log_frame env ev v) as Hfr;
    set (w' := snd (audit_log env ev v)) in * end.
  cbv zeta in Hfr. destruct Hfr as (_ & Hu & Hs & _ & _ & _ & _ & Hn).
  cbn [sessions users now set_users set_sessions set_verified] in Hu, Hs, Hn.
  rewrite bind_run.
  rewrite (incoming_live _ addr ua (payload_of u) (now w + SESSION_TTL)%Z w').
  - rewrite getSessionUser_run. cbn [fst session session_user payload_of su_id].
    apply String.eqb_neq in Hid. rewrite Hid.
    unfold row. cbn [users set_sessions]. rewrite Hu.
    rewrite find_update_where_id by (intros x; reflexivity).
    fold (row (id u) w). rewrite Hrow. simpl. rewrite Hact. reflexivity.
  - rewrite Hs. apply lookup_insert_eq.
  - rewrite Hn. pose proof SESSION_TTL_pos. lia.
Qed.

Lemma login_then_getSessionUser_witness :
  fst (bind (incoming "sid-9" "10.0.0.7" None) getSessionUser
         (snd (login Sample.env (mkLoginDto " OWNER@hotel.com" "pw")
                 (Sample.request (mkSession "sid-9" None)) Sample.world)))
  = Ok (Some (with_last_login 1000%Z Sample.alice)).
Proof.
  apply (login_then_getSessionUser Sample.env
           (mkLoginDto " OWNER@hotel.com" "pw")
           (Sample.request (mkSession "sid-9" None)) Sample.world Sample.alice
           "10.0.0.7" None eq_refl eq_refl eq_refl eq_refl).
  - discriminate.
  - reflexivity.
Defined.



(** X4.  The two calls to the verifier treat a rejection differently.
    For an unknown address the rejection is caught and the caller still
    sees the invalid-credentials error.  For an existing active account
    the rejection (a damaged stored hash, say) is not caught: [login]
    throws that plain error and emits no audit event. *)
Theorem login_verifier_rejection
    (env : Env) (dtoA dtoU : LoginDto) (reqA reqU : FastifyRequest)
    (wA wU : World) (u : User) (eA eU : string) :
  account (dto_email dtoA) wA = None ->
  argon2_verify env PLACEHOLDER_HASH (dto_password dtoA) = inl eA ->
  account (dto_email dtoU) wU = Some u ->
  is_active u = true ->
  argon2_verify env (password_hash u) (dto_password dtoU) = inl eU ->
  fst (login env dtoA reqA wA) = Err (UnauthorizedException "Invalid credentials")
  /\ fst (login env dtoU reqU wU) = Err (Error eU)
  /\ audited (snd (login env dtoU reqU wU)) = audited wU.
Proof.
  intros HA _ HU Hact Hrej.
  rewrite (login_absent env dtoA reqA wA HA).
  rewrite (login_found env dtoU reqU wU u HU Hact), Hrej.
  repeat split.
Qed.

Lemma login_verifier_rejection_witness :
  fst (login Sample.env (mkLoginDto "nobody@hotel.com" "pw")
         (Sample.request (mkSession "s" None)) Sample.world)
  = Err (UnauthorizedException "Invalid credentials")
  /\ fst (login Sample.env (mkLoginDto "owner@hotel.com" "pw")
            (Sample.request (mkSession "s" None)) Sample.world_bad_hash)
     = Err (Error "invalid hash").
Proof.
  pose proof (login_verifier_rejection Sample.env
                (mkLoginDto "nobody@hotel.com" "pw")
                (mkLoginDto "owner@hotel.com" "pw")
                (Sample.request (mkSession "s" None))
                (Sample.request (mkSession "s" None))
                Sample.world Sample.world_bad_hash
                (mkUser "u1" "owner@hotel.com" PLACEHOLDER_HASH OWNER
                   "Alice" "Ng" true None)
                "invalid hash" "invalid hash"
                eq_refl eq_refl eq_refl eq_refl eq_refl) as H.
  split; [exact (proj1 H)|exact (proj1 (proj2 H))].
Defined.

(** ** The guards in sequence *)

Lemma AuthGuard_run (req : FastifyRequest) (w : World) :
  AuthGuard_canActivate false req w =
  (match fst (getSessionUser req w) with
   | Ok (Some u) =>
       Ok (true, mkRequest (session req) (ip req) (user_agent req) (Some u))
   | Ok None => Err (UnauthorizedException "Session expired or invalid")
   | Err e => Err e
   end, w).
Proof.
  unfold AuthGuard_canActivate. rewrite bind_run, getSessionUser_run.
  cbn [fst]. destruct (session_user (session req)) as [p|]; [|reflexivity].
  destruct (su_id p =? "")%string; [reflexivity|].
  destruct (row (su_id p) w) as [u|]; [|reflexivity].
  destruct (is_active u); reflexivity.
Qed.

(** X5.  On a route behind [AuthGuard] and [RolesGuard] the role that
    counts is the one in the user table now, not the one cached in the
    session payload at login.  For a session whose payload names an
    active row, a non-empty role list admits the request exactly when
    the row's role is listed, the handler then sees that row attached
    to the request, and the world is not changed; otherwise the request
    is refused with the list of required roles. *)
Theorem guards_check_current_role
    (req : FastifyRequest) (w : World) (p : SessionUser) (u : User)
    (roles : list Role) :
  session_user (session req) = Some p ->
  su_id p <> "" ->
  row (su_id p) w = Some u ->
  is_active u = true ->
  roles <> [] ->
  let out := UseGuards_Auth_Roles false (Some roles) req w in
  snd out = w
  /\ (In (role u) roles ->
      fst out = Ok (mkRequest (session req) (ip req) (user_agent req) (Some u)))
  /\ (~ In (role u) roles -> fst out = Err (access_denied roles)).
Proof.
  intros Hp Hid Hrow Hact Hroles out. unfold out, UseGuards_Auth_Roles.
  rewrite bind_run, AuthGuard_run, getSessionUser_run, Hp. cbn [fst].
  apply String.eqb_neq in Hid. rewrite Hid, Hrow, Hact. cbn [snd].
  unfold RolesGuard_canActivate. cbn [req_user].
  destruct roles as [|r rs]; [contradiction|]. simpl length. cbn [Nat.eqb].
  fold (access_denied (r :: rs)).
  destruct (existsb (Role_eqb (role u)) (r :: rs)) eqn:E; cbn [negb].
  - apply existsb_Role in E. split; [reflexivity|].
    split; [reflexivity|]. intros Hn. contradiction.
  - assert (~ In (role u) (r :: rs)) as Hn.
    { intros Hin. apply existsb_Role in Hin. congruence. }
    split; [reflexivity|]. split; [intros Hin; contradiction|reflexivity].
Qed.

Lemma guards_check_current_role_witness :
  fst (UseGuards_Auth_Roles false (Some [OWNER; MANAGER])
         (Sample.request (mkSession "sid-1" (Some Sample.alice_payload)))
         Sample.world_demoted)
  = Err (ForbiddenException "Access denied. Required roles: OWNER, MANAGER").
Proof.
  pose proof (guards_check_current_role
                (Sample.request (mkSession "sid-1" (Some Sample.alice_payload)))
                Sample.world_demoted Sample.alice_payload
                (mkUser "u1" "owner@hotel.com" "hash:pw" KITCHEN "Alice" "Ng"
                   true None)
                [OWNER; MANAGER] eq_refl ltac:(discriminate) eq_refl eq_refl
                ltac:(discriminate)) as H.
  cbv zeta in H. apply (proj2 (proj2 H)).
  simpl. intros [E|[E|[]]]; discriminate.
Defined.

(** X6.  What the guard pair does without a live user.  A session that
    [getSessionUser] does not accept is refused by [AuthGuard] with
    [UnauthorizedException] before any role is looked at, whatever the
    role list.  On a route marked public, [AuthGuard] attaches no user,
    so a non-empty role list refuses every request that arrives without
    one ([ForbiddenException], not authenticated), while an empty or
    absent list lets it through. *)
Theorem guards_without_user
    (req : FastifyRequest) (w : World) (roles : option (list Role)) :
  fst (getSessionUser req w) = Ok None ->
  req_user req = None ->
  UseGuards_Auth_Roles false roles req w
  = (Err (UnauthorizedException "Session expired or invalid"), w)
  /\ UseGuards_Auth_Roles true roles req w
     = (match roles with
        | None | Some [] => Ok req
        | Some (_ :: _) => Err (ForbiddenException "Not authenticated")
        end, w).
Proof.
  intros Hnone Hu. unfold UseGuards_Auth_Roles. split.
  - rewrite bind_run, AuthGuard_run, Hnone. reflexivity.
  - rewrite bind_run. cbn [AuthGuard_canActivate ret snd].
    unfold RolesGuard_canActivate. rewrite Hu.
    destruct roles as [[|r rs]|]; reflexivity.
Qed.

Lemma guards_without_user_witness :
  UseGuards_Auth_Roles false (Some [OWNER])
    (Sample.request (mkSession "sid-2" (Some Sample.bob_payload))) Sample.world
  = (Err (UnauthorizedException "Session expired or invalid"), Sample.world)
  /\ fst (UseGuards_Auth_Roles true (Some [OWNER])
            (Sample.request (mkSession "sid-2" None)) Sample.world)
     = Err (ForbiddenException "Not authenticated").
Proof.
  split.
  - apply (guards_without_user
             (Sample.request (mkSession "sid-2" (Some Sample.bob_payload)))
             Sample.world (Some [OWNER]) eq_refl eq_refl).
  - pose proof (guards_without_user (Sample.request (mkSession "sid-2" None))
                  Sample.world (Some [OWNER]) eq_refl eq_refl) as H.
    rewrite (proj2 H). reflexivity.
Defined.

(** X7.  [POST /auth/logout] only logs out a caller the guard accepts.
    A request whose session names a deactivated user is refused with
    [UnauthorizedException] and the world is unchanged: the session
    entry stays in the store and no [USER_LOGOUT] is emitted.  For an
    active user and a reachable store the route answers with its
    message, deletes the session key and emits [USER_LOGOUT]. *)
Theorem AuthController_logout_by_status
    (env : Env) (reqD reqL : FastifyRequest) (wD wL : World)
    (pD pL : SessionUser) (uD uL : User) :
  session_user (session reqD) = Some pD ->
  row (su_id pD) wD = Some uD ->
  is_active uD = false ->
  session_user (session reqL) = Some pL ->
  su_id pL <> "" ->
  row (su_id pL) wL = Some uL ->
  is_active uL = true ->
  redisUp wL = true ->
  AuthController_logout env reqD wD
  = (Err (UnauthorizedException "Session expired or invalid"), wD)
  /\ fst (AuthController_logout env reqL wL) = Ok "Logged out successfully"
  /\ sessions (snd (AuthController_logout env reqL wL))
     = delete (sessionId (session reqL)) (sessions wL)
  /\ audited (snd (AuthController_logout env reqL wL))
     = audited wL ++ [logout_event pL reqL].
Proof.
  intros HpD HrD HaD HpL Hid HrL HaL Hup. split.
  - unfold AuthController_logout. rewrite bind_run, AuthGuard_run.
    rewrite getSessionUser_run, HpD. cbn [fst].
    destruct (su_id pD =? "")%string; [reflexivity|].
    rewrite HrD, HaD. reflexivity.
  - unfold AuthController_logout. rewrite bind_run, AuthGuard_run.
    rewrite getSessionUser_run, HpL. cbn [fst].
    apply String.eqb_neq in Hid. rewrite Hid, HrL, HaL. cbn [snd].
    rewrite bind_run, (logout_run env _ wL Hup).
    cbn [session session_user sessionId]. rewrite HpL.
    change (logout_event pL (mkRequest (session reqL) (ip reqL)
                               (user_agent reqL) (Some uL)))
      with (logout_event pL reqL).
    pose proof (audit_log_frame env (logout_event pL reqL)
                  (set_sessions (delete (sessionId (session reqL))) wL)) as Hfr.
    cbv zeta in Hfr. destruct Hfr as (Ha & _ & Hs & _).
    cbn [fst snd ret]. rewrite Ha, Hs. repeat split.
Qed.

Lemma AuthController_logout_by_status_witness :
  let reqD := Sample.request (mkSession "sid-2" (Some Sample.bob_payload)) in
  let reqL := Sample.request (mkSession "sid-1" (Some Sample.alice_payload)) in
  AuthController_logout Sample.env reqD Sample.world
  = (Err (UnauthorizedException "Session expired or invalid"), Sample.world)
  /\ fst (AuthController_logout Sample.env reqL Sample.world)
     = Ok "Logged out successfully"
  /\ sessions (snd (AuthController_logout Sample.env reqL Sample.world))
       !! "sid-1" = None.
Proof.
  intros reqD reqL.
  pose proof (AuthController_logout_by_status Sample.env reqD reqL
                Sample.world Sample.world Sample.bob_payload
                Sample.alice_payload Sample.bob Sample.alice
                eq_refl eq_refl eq_refl eq_refl ltac:(discriminate)
                eq_refl eq_refl eq_refl) as (H1 & H2 & H3 & _).
  split; [exact H1|]. split; [exact H2|].
  rewrite H3. apply lookup_delete_eq.
Defined.

(** ** More on the updater *)

Lemma pull_guarded_valid (env : Env) (by_ : string) (ipa : option string)
    (w : World) :
  target_ok env = true ->
  pull_guarded env by_ ipa w =
  let rev := rev_parse_commit WEBSITE_MOUNT in
  let t1 := spawned w ++ [rev] in
  let w2 := set_spawned (fun l => l ++ [git_pull])
              (set_spawned (fun l => l ++ [rev]) w) in
  match execAsync env t1 git_pull with
  | inl e =>
      (Err (InternalServerErrorException ("Update failed: " ++ e)%string),
       set_isUpdating false
         (snd (audit_log env (update_failed_event e by_ ipa) w2)))
  | inr po =>
      let t2 := t1 ++ [git_pull] in
      let before := reported env (spawned w) rev in
      let after := reported env t2 rev in
      let br := reported env (t2 ++ [rev]) (rev_parse_branch WEBSITE_MOUNT) in
      (Ok (mkUpdateResult true (captured po) br after (now w)),
       set_isUpdating false
         (snd (audit_log env
                 (update_event before after br (captured po) by_ ipa)
                 (set_spawned (fun l => l ++ [rev_parse_branch WEBSITE_MOUNT])
                    (set_spawned (fun l => l ++ [rev]) w2)))))
  end.
Proof.
  intros Hok. cbv zeta.
  unfold pull_guarded, try_finally, try_catch, pull_body.
  rewrite bind_run, (validate_ok env _ Hok).
  rewrite bind_run, getGitCommit_run.
  rewrite bind_run, exec_run. simpl spawned.
  destruct (execAsync env (spawned w ++ [rev_parse_commit WEBSITE_MOUNT])
              git_pull) as [e|po].
  - unfold pull_catch. rewrite bind_run. simpl message.
    fold (update_failed_event e by_ ipa). rewrite !audit_log_run.
    reflexivity.
  - cbv zeta. rewrite bind_run, getGitCommit_run.
    rewrite bind_run, getGitBranch_run.
    rewrite bind_run. unfold get. cbv beta iota.
    rewrite bind_run. fold (captured po).
    rewrite !audit_log_run. reflexivity.
Qed.

(** X8.  On a valid mount point [getWebsiteStatus] never throws.  It
    spawns exactly three processes, in this order: branch query,
    revision query, [git status]; it changes nothing else, and it does
    not look at the update flag, so it also answers while an update is
    running.  A failing branch or revision query reads [unknown]; the
    tree is reported clean exactly when [git status] fails or prints
    only white space. *)
Theorem getWebsiteStatus_valid (env : Env) (w : World) :
  target_ok env = true ->
  let t := spawned w ++ [rev_parse_branch WEBSITE_MOUNT] in
  getWebsiteStatus env w =
  (Ok (mkStatus
         (reported env (spawned w) (rev_parse_branch WEBSITE_MOUNT))
         (reported env t (rev_parse_commit WEBSITE_MOUNT))
         (fs_stat_mtime env "/mnt/website/.git/FETCH_HEAD")
         match execAsync env (t ++ [rev_parse_commit WEBSITE_MOUNT]) git_status with
         | inr out => (Js.trim (fst out) =? "")%string
         | inl _ => true
         end),
   set_spawned (fun l => l ++ status_processes) w).
Proof.
  intros Hok t. unfold getWebsiteStatus.
  rewrite bind_run, (validate_ok env _ Hok).
  rewrite bind_run, getGitBranch_run.
  rewrite bind_run, getGitCommit_run.
  rewrite bind_run. unfold try_catch at 1. rewrite bind_run, exec_run.
  simpl spawned. fold t.
  assert (Hw : set_spawned (fun l => l ++ [git_status])
                 (set_spawned (fun l => l ++ [rev_parse_commit WEBSITE_MOUNT])
                    (set_spawned
                       (fun l => l ++ [rev_parse_branch WEBSITE_MOUNT]) w))
               = set_spawned (fun l => l ++ status_processes) w).
  { destruct w as [us ss up au ar ve sp fl tm]. unfold set_spawned. cbn.
    rewrite <- !app_assoc. reflexivity. }
  rewrite <- Hw.
  destruct (execAsync env (t ++ [rev_parse_commit WEBSITE_MOUNT]) git_status)
    as [e|out]; reflexivity.
Qed.

Lemma getWebsiteStatus_valid_witness :
  getWebsiteStatus Sample.env (set_isUpdating true Sample.world)
  = (Ok (mkStatus "main" "abc1234" (Some 1700000000000%Z) true),
     set_spawned (fun l => l ++ status_processes)
       (set_isUpdating true Sample.world)).
Proof.
  rewrite (getWebsiteStatus_valid Sample.env (set_isUpdating true Sample.world)
             eq_refl).
  reflexivity.
Defined.

(** X9.  The two entry points treat a failed validation differently.
    [getWebsiteStatus] lets the error of [validateMountPoint] through
    as it is (a [BadRequestException] stays one), spawns nothing and
    audits nothing.  [pullWebsiteUpdate] catches the same error, emits
    [WEBSITE_UPDATE_FAILED] with its message and throws
    [InternalServerErrorException] with the message prefixed. *)
Theorem validation_error_surfaces
    (env : Env) (by_ : string) (ipa : option string) (w : World) :
  isUpdating w = false ->
  target_ok env = false ->
  exists e,
    fst (validateMountPoint env WEBSITE_MOUNT w) = Err e
    /\ getWebsiteStatus env w = (Err e, w)
    /\ fst (pullWebsiteUpdate env by_ ipa w)
       = Err (InternalServerErrorException ("Update failed: " ++ message e)%string)
    /\ audited (snd (pullWebsiteUpdate env by_ ipa w))
       = audited w ++ [update_failed_event (message e) by_ ipa].
Proof.
  intros Hflag Hbad.
  destruct (validate_fails env w Hbad) as [e He].
  exists e. split; [rewrite He; reflexivity|]. split.
  - unfold getWebsiteStatus. rewrite bind_run, He. reflexivity.
  - rewrite (pull_idle env by_ ipa w Hflag).
    assert (He' : validateMountPoint env WEBSITE_MOUNT (set_isUpdating true w)
                  = (Err e, set_isUpdating true w)).
    { rewrite validateMountPoint_run. rewrite validateMountPoint_run in He.
      cbv zeta in He |- *. injection He as Hr. rewrite Hr. reflexivity. }
    rewrite (pull_guarded_invalid env by_ ipa _ e He').
    split; [reflexivity|]. cbn [snd audited set_isUpdating].
    apply (audit_log_frame env _ (set_isUpdating true w)).
Qed.

Lemma validation_error_surfaces_witness :
  getWebsiteStatus Sample.env_no_git Sample.world
  = (Err (BadRequestException "Website directory is not a git repository"),
     Sample.world)
  /\ fst (pullWebsiteUpdate Sample.env_no_git "u1" None Sample.world)
     = Err (InternalServerErrorException
              "Update failed: Website directory is not a git repository").
Proof.
  destruct (validation_error_surfaces Sample.env_no_git "u1" None Sample.world
              eq_refl eq_refl) as (e & He & Hs & Hp & _).
  assert (e = BadRequestException "Website directory is not a git repository")
    as -> by (vm_compute in He; congruence).
  split; [exact Hs|exact Hp].
Defined.

(** X10.  The processes of one [pullWebsiteUpdate].  Whatever the
    caller passes and whatever the outside answers, the call appends
    one of three traces to the processes spawned so far: nothing
    (rejected by the mutex or by validation), a revision query and the
    pull (the pull failed), or revision query, pull, revision query and
    branch query (success).  So the pull runs at most once, after the
    first revision query, every process runs in the mount point, and
    the command lines do not depend on the caller's arguments. *)
Theorem pullWebsiteUpdate_processes
    (env : Env) (by_ : string) (ipa : option string) (w : World) :
  exists t,
    In t pull_traces
    /\ spawned (snd (pullWebsiteUpdate env by_ ipa w)) = spawned w ++ t
    /\ ((exists r, fst (pullWebsiteUpdate env by_ ipa w) = Ok r)
        <-> length t = 4%nat)
    /\ Forall (fun c => cwd c = WEBSITE_MOUNT) t
    /\ (count_occ string_dec (map cmd t) "git pull --ff-only" <= 1)%nat
    /\ (forall by' ipa',
          spawned (snd (pullWebsiteUpdate env by' ipa' w)) = spawned w ++ t).
Proof.
  assert (Hshape : forall t, In t pull_traces ->
            Forall (fun c => cwd c = WEBSITE_MOUNT) t
            /\ (count_occ string_dec (map cmd t) "git pull --ff-only" <= 1)%nat).
  { intros t [<-|[<-|[<-|[]]]]; split;
      try (repeat constructor); vm_compute; intros; discriminate. }
  destruct (isUpdating w) eqn:Hflag.
  - exists []. split; [left; reflexivity|].
    assert (Hrun : forall b i, pullWebsiteUpdate env b i w
                = (Err (BadRequestException "An update is already in progress"), w)).
    { intros b i. unfold pullWebsiteUpdate. rewrite bind_run. unfold pull_acquire.
      rewrite Hflag. reflexivity. }
    rewrite Hrun. cbn [fst snd]. rewrite app_nil_r.
    split; [reflexivity|]. split.
    { split; [intros [r Hr]; discriminate|intros Hl; discriminate]. }
    split; [constructor|]. split; [simpl; lia|].
    intros b i. rewrite Hrun. reflexivity.
  - destruct (target_ok env) eqn:Hok.
    + assert (Hrun := fun b i =>
                eq_trans (pull_idle env b i w Hflag)
                         (pull_guarded_valid env b i (set_isUpdating true w) Hok)).
      cbv zeta in Hrun. cbn [spawned set_isUpdating] in Hrun.
      destruct (execAsync env (spawned w ++ [rev_parse_commit WEBSITE_MOUNT])
                  git_pull) as [e|po] eqn:Hpull.
      * exists [rev_parse_commit WEBSITE_MOUNT; git_pull].
        split; [right; left; reflexivity|].
        assert (Hsp : forall b i,
                  spawned (snd (pullWebsiteUpdate env b i w))
                  = spawned w ++ [rev_parse_commit WEBSITE_MOUNT; git_pull]).
        { intros b i. rewrite Hrun. cbn [snd spawned set_isUpdating].
          match goal with |- context [audit_log env ?ev ?v] =>
            pose proof (audit_log_frame env ev v) as Hfr end.
          cbv zeta in Hfr. destruct Hfr as (_ & _ & _ & _ & _ & Hs & _).
          rewrite Hs. cbn [spawned set_spawned set_isUpdating].
          rewrite <- app_assoc. reflexivity. }
        split; [apply Hsp|]. split.
        { rewrite Hrun. cbn [fst].
          split; [intros [r Hr]; discriminate|intros Hl; discriminate]. }
        split; [apply Hshape; right; left; reflexivity|].
        split; [apply Hshape; right; left; reflexivity|exact Hsp].
      * exists [rev_parse_commit WEBSITE_MOUNT; git_pull;
                rev_parse_commit WEBSITE_MOUNT; rev_parse_branch WEBSITE_MOUNT].
        split; [right; right; left; reflexivity|].
        assert (Hsp : forall b i,
                  spawned (snd (pullWebsiteUpdate env b i w))
                  = spawned w ++ [rev_parse_commit WEBSITE_MOUNT; git_pull;
                                  rev_parse_commit WEBSITE_MOUNT;
                                  rev_parse_branch WEBSITE_MOUNT]).
        { intros b i. rewrite Hrun. cbn [snd spawned set_isUpdating].
          match goal with |- context [audit_log env ?ev ?v] =>
            pose proof (audit_log_frame env ev v) as Hfr end.
          cbv zeta in Hfr. destruct Hfr as (_ & _ & _ & _ & _ & Hs & _).
          rewrite Hs. cbn [spawned set_spawned set_isUpdating].
          rewrite <- !app_assoc. reflexivity. }
        split; [apply Hsp|]. split.
        { rewrite Hrun. cbn [fst].
          split; [reflexivity|intros _; eexists; reflexivity]. }
        split; [apply Hshape; right; right; left; reflexivity|].
        split; [apply Hshape; right; right; left; reflexivity|exact Hsp].
    + exists []. split; [left; reflexivity|].
      assert (Hrun : forall b i, exists e,
                pullWebsiteUpdate env b i w
                = (Err (InternalServerErrorException
                          ("Update failed: " ++ message e)%string),
                   set_isUpdating false
                     (snd (audit_log env (update_failed_event (message e) b i)
                             (set_isUpdating true w))))).
      { intros b i. rewrite (pull_idle env b i w Hflag).
        destruct (validate_fails env (set_isUpdating true w) Hok) as [e He].
        exists e. apply (pull_guarded_invalid env b i _ e He). }
      assert (Hsp : forall b i,
                spawned (snd (pullWebsiteUpdate env b i w)) = spawned w ++ []).
      { intros b i. destruct (Hrun b i) as [e He]. rewrite He.
        cbn [snd spawned set_isUpdating]. rewrite app_nil_r.
        apply (audit_log_frame env _ (set_isUpdating true w)). }
      split; [apply Hsp|]. split.
      { destruct (Hrun by_ ipa) as [e He]. rewrite He. cbn [fst].
        split; [intros [r Hr]; discriminate|intros Hl; discriminate]. }
      split; [constructor|]. split; [simpl; lia|exact Hsp].
Qed.

(** X11.  An update that passes the mutex check emits exactly one audit
    event, for the caller and address it was given.  It is
    [WEBSITE_UPDATE] exactly when the call returns, and then its new
    value carries the revision, branch and output that are returned;
    otherwise it is [WEBSITE_UPDATE_FAILED] carrying a message, and the
    call throws [InternalServerErrorException] with that message after
    the fixed prefix. *)
Theorem pullWebsiteUpdate_audits_once
    (env : Env) (by_ : string) (ipa : option string) (w : World) :
  isUpdating w = false ->
  let out := pullWebsiteUpdate env by_ ipa w in
  exists ev,
    audited (snd out) = audited w ++ [ev]
    /\ resource ev = "WebsiteSource"
    /\ performedById ev = Some by_
    /\ ipAddress ev = ipa
    /\ ((exists r before,
           fst out = Ok r
           /\ ev = update_event before (commit r) (branch r) (output r) by_ ipa)
        \/ (exists m,
              fst out = Err (InternalServerErrorException
                               ("Update failed: " ++ m)%string)
              /\ ev = update_failed_event m by_ ipa)).
Proof.
  intros Hflag out. unfold out. rewrite (pull_idle env by_ ipa w Hflag).
  destruct (target_ok env) eqn:Hok.
  - rewrite (pull_guarded_valid env by_ ipa _ Hok). cbv zeta.
    cbn [spawned set_isUpdating].
    destruct (execAsync env (spawned w ++ [rev_parse_commit WEBSITE_MOUNT])
                git_pull) as [e|po];
      match goal with |- context [audit_log env ?ev ?v] =>
        pose proof (audit_log_frame env ev v) as Hfr; exists ev end;
      cbv zeta in Hfr; destruct Hfr as (Ha & _);
      cbn [fst snd audited set_isUpdating]; rewrite Ha;
      (split; [reflexivity|]); repeat (split; [reflexivity|]).
    + right. exists e. split; reflexivity.
    + left. eexists; eexists. split; reflexivity.
  - destruct (validate_fails env (set_isUpdating true w) Hok) as [e He].
    rewrite (pull_guarded_invalid env by_ ipa _ e He).
    exists (update_failed_event (message e) by_ ipa).
    pose proof (audit_log_frame env (update_failed_event (message e) by_ ipa)
                  (set_isUpdating true w)) as Hfr.
    cbv zeta in Hfr. destruct Hfr as (Ha & _).
    cbn [fst snd audited set_isUpdating]. rewrite Ha.
    split; [reflexivity|]. repeat (split; [reflexivity|]).
    right. exists (message e). split; reflexivity.
Qed.

Lemma pullWebsiteUpdate_audits_once_witness :
  exists ev,
    audited (snd (pullWebsiteUpdate Sample.env "u1" (Some "10.0.0.7")
                    Sample.world)) = [ev]
    /\ performedById ev = Some "u1".
Proof.
  destruct (pullWebsiteUpdate_audits_once Sample.env "u1" (Some "10.0.0.7")
              Sample.world eq_refl) as (ev & Ha & _ & Hby & _).
  exists ev. split; [exact Ha|exact Hby].
Defined.

(** ** The audit sink *)

(** X12.  An outage of the audit table is invisible to the callers.
    [AuditService.log] itself always returns, records the row only when
    the insert works, and in either case counts as emitted.  Hence
    [login], [logout], [revokeAllSessionsForUser] and
    [pullWebsiteUpdate] return or throw the same thing, and leave the
    same sessions, users and processes, whatever the table answers. *)
Theorem audit_outage_is_invisible
    (env : Env) (f : AuditLogInput -> option string) (w : World) :
  let env' := with_audit_table f env in
  (forall input,
     fst (audit_log env' input w) = Ok tt
     /\ audited (snd (audit_log env' input w)) = audited w ++ [input]
     /\ auditRows (snd (audit_log env' input w))
        = match f input with
          | None => auditRows w ++ [input]
          | Some _ => auditRows w
          end)
  /\ (forall dto req,
        fst (login env' dto req w) = fst (login env dto req w)
        /\ sessions (snd (login env' dto req w))
           = sessions (snd (login env dto req w))
        /\ users (snd (login env' dto req w))
           = users (snd (login env dto req w)))
  /\ (forall req,
        fst (logout env' req w) = fst (logout env req w)
        /\ sessions (snd (logout env' req w))
           = sessions (snd (logout env req w)))
  /\ (forall t p i,
        fst (revokeAllSessionsForUser env' t p i w)
        = fst (revokeAllSessionsForUser env t p i w))
  /\ (forall by_ ipa,
        fst (pullWebsiteUpdate env' by_ ipa w)
        = fst (pullWebsiteUpdate env by_ ipa w)
        /\ spawned (snd (pullWebsiteUpdate env' by_ ipa w))
           = spawned (snd (pullWebsiteUpdate env by_ ipa w))
        /\ isUpdating (snd (pullWebsiteUpdate env' by_ ipa w))
           = isUpdating (snd (pullWebsiteUpdate env by_ ipa w))).
Proof.
  intros env'.
  assert (Hfr : forall e ev v,
            sessions (snd (audit_log e ev v)) = sessions v
            /\ users (snd (audit_log e ev v)) = users v
            /\ spawned (snd (audit_log e ev v)) = spawned v).
  { intros e ev v. pose proof (audit_log_frame e ev v) as H. cbv zeta in H.
    tauto. }
  split; [|split; [|split; [|split]]].
  - intros input. rewrite audit_log_run. cbn [auditLog_create env' with_audit_table].
    destruct (f input); repeat split.
  - intros dto req.
    destruct (account (dto_email dto) w) as [u|] eqn:Hacc.
    + destruct (is_active u) eqn:Hact.
      * rewrite (login_found env' dto req w u Hacc Hact).
        rewrite (login_found env dto req w u Hacc Hact).
        cbn [argon2_verify env' with_audit_table].
        destruct (argon2_verify env (password_hash u) (dto_password dto))
          as [err|[|]]; [repeat split| |].
        -- cbv zeta. destruct (redisUp w); [|repeat split].
           cbn [fst snd].
           rewrite !(proj1 (Hfr _ _ _)), !(proj1 (proj2 (Hfr _ _ _))).
           repeat split.
        -- cbn [fst snd].
           rewrite !(proj1 (Hfr _ _ _)), !(proj1 (proj2 (Hfr _ _ _))).
           repeat split.
      * rewrite (login_inactive env' dto req w u Hacc Hact).
        rewrite (login_inactive env dto req w u Hacc Hact). repeat split.
    + rewrite (login_absent env' dto req w Hacc).
      rewrite (login_absent env dto req w Hacc). repeat split.
  - intros req. destruct (redisUp w) eqn:Hup.
    + rewrite (logout_run env' req w Hup), (logout_run env req w Hup).
      cbn [fst snd]. split; [reflexivity|].
      destruct (session_user (session req)); [|reflexivity].
      rewrite !(proj1 (Hfr _ _ _)). reflexivity.
    + rewrite (logout_store_down env' req w Hup).
      rewrite (logout_store_down env req w Hup). repeat split.
  - intros t p i. unfold revokeAllSessionsForUser. rewrite !audit_log_run.
    reflexivity.
  - intros by_ ipa. destruct (isUpdating w) eqn:Hflag.
    + unfold pullWebsiteUpdate. rewrite !bind_run. unfold pull_acquire.
      rewrite Hflag. repeat split.
    + rewrite (pull_idle env' by_ ipa w Hflag), (pull_idle env by_ ipa w Hflag).
      rewrite !pull_guarded_clears.
      destruct (target_ok env) eqn:Hok.
      * assert (Hok' : target_ok env' = true) by exact Hok.
        rewrite (pull_guarded_valid env' by_ ipa _ Hok').
        rewrite (pull_guarded_valid env by_ ipa _ Hok).
        cbv zeta. cbn [execAsync env' with_audit_table].
        destruct (execAsync env _ git_pull) as [e|po]; cbn [fst snd];
          (split; [reflexivity|]); (split; [|reflexivity]);
          cbn [spawned set_isUpdating]; rewrite !(proj2 (proj2 (Hfr _ _ _)));
          reflexivity.
      * assert (Hok' : target_ok env' = false) by exact Hok.
        destruct (validate_fails env (set_isUpdating true w) Hok) as [e He].
        assert (He' : validateMountPoint env' WEBSITE_MOUNT (set_isUpdating true w)
                      = (Err e, set_isUpdating true w)) by exact He.
        rewrite (pull_guarded_invalid env' by_ ipa _ e He').
        rewrite (pull_guarded_invalid env by_ ipa _ e He).
        cbn [fst snd spawned set_isUpdating].
        rewrite !(proj2 (proj2 (Hfr _ _ _))). repeat split.
Qed.

Example login_with_audit_table_down :
  fst (login Sample.env_audit_down (mkLoginDto "owner@hotel.com" "pw")
         (Sample.request (mkSession "sid-9" None)) Sample.world)
  = Ok (mkLoginResult Sample.alice_payload "sid-9")
  /\ auditRows (snd (login Sample.env_audit_down
                       (mkLoginDto "owner@hotel.com" "pw")
                       (Sample.request (mkSession "sid-9" None)) Sample.world))
     = [].
Proof. vm_compute. split; reflexivity. Qed.

(** ** The normal form of a login address *)
















Example capitalised_row_is_unreachable :
  account "Carol@hotel.com"
    (set_users (fun l => mkUser "u3" "Carol@hotel.com" "hash:x" KITCHEN
                           "Carol" "Diaz" true None :: l) Sample.world)
  = None.
Proof. vm_compute. reflexivity. Qed.

(** ** The mount-point check on its own *)

(** X15.  [validateMountPoint] is a pure check: it never changes the
    world (it spawns nothing and audits nothing).  It accepts a path
    exactly when the path resolves to the approved mount point and both
    the mount point and its [.git] entry can be accessed.  A path that
    resolves elsewhere is refused as an invalid mount path without the
    file system being consulted, so the answer is the same whatever
    exists there. *)
Theorem validateMountPoint_accepts_only_mount
    (env : Env) (mountPath : string) (w : World) :
  snd (validateMountPoint env mountPath w) = w
  /\ (fst (validateMountPoint env mountPath w) = Ok tt <->
      path_resolve env mountPath = WEBSITE_MOUNT
      /\ fs_access env WEBSITE_MOUNT = None
      /\ fs_access env "/mnt/website/.git" = None)
  /\ (path_resolve env mountPath <> WEBSITE_MOUNT ->
      forall probe,
        fst (validateMountPoint
               (mkEnv (argon2_verify env) (path_resolve env) probe
                      (fs_stat_mtime env) (execAsync env) (auditLog_create env))
               mountPath w)
        = Err (BadRequestException "Invalid mount path")).
Proof.
  split; [rewrite validateMountPoint_run; reflexivity|]. split.
  - rewrite validateMountPoint_run. cbv zeta. cbn [fst].
    destruct (path_resolve env mountPath =? WEBSITE_MOUNT)%string eqn:Er.
    + apply String.eqb_eq in Er. rewrite Er.
      change (Js.path_join [WEBSITE_MOUNT; ".git"]) with "/mnt/website/.git".
      destruct (fs_access env WEBSITE_MOUNT) eqn:Ea.
      * split; [discriminate|]. intros (_ & H & _). discriminate.
      * destruct (fs_access env "/mnt/website/.git") eqn:Eg.
        -- split; [discriminate|]. intros (_ & _ & H). discriminate.
        -- split; auto.
    + apply String.eqb_neq in Er. split; [discriminate|].
      intros (H & _). contradiction.
  - intros Hne probe. rewrite validateMountPoint_run. cbv zeta.
    cbn [fst path_resolve]. apply String.eqb_neq in Hne. rewrite Hne.
    reflexivity.
Qed.

Lemma validateMountPoint_accepts_only_mount_witness :
  fst (validateMountPoint Sample.env "/mnt/website" Sample.world) = Ok tt
  /\ fst (validateMountPoint Sample.env "/mnt/website/../../etc" Sample.world)
     = Err (BadRequestException "Invalid mount path").
Proof.
  split.
  - apply (validateMountPoint_accepts_only_mount Sample.env "/mnt/website"
             Sample.world).
    repeat split.
  - apply (proj2 (proj2 (validateMountPoint_accepts_only_mount Sample.env
                           "/mnt/website/../../etc" Sample.world))
             ltac:(discriminate) (fs_access Sample.env)).
Defined.

(** ** Start-up *)

(** X16.  The reconnection delay grows by 50 ms per attempt and is
    capped at two seconds: it is never negative for a non-negative
    attempt number, never above 2000, never decreases from one attempt
    to the next, and reaches the cap exactly from attempt 40 on. *)
Theorem reconnectStrategy_bounds (retries : Z) :
  (0 <= retries)%Z ->
  (0 <= reconnectStrategy retries <= 2000)%Z
  /\ (reconnectStrategy retries <= reconnectStrategy (retries + 1))%Z
  /\ (reconnectStrategy retries = 2000 <-> 40 <= retries)%Z
  /\ (retries < 40 -> reconnectStrategy retries = retries * 50)%Z.
Proof. intros H. unfold reconnectStrategy. lia. Qed.

Lemma reconnectStrategy_bounds_witness :
  (reconnectStrategy 3 = 150 /\ reconnectStrategy 1000 = 2000)%Z.
Proof.
  pose proof (reconnectStrategy_bounds 3 ltac:(lia)) as (_ & _ & _ & H3).
  pose proof (reconnectStrategy_bounds 1000 ltac:(lia)) as (_ & _ & H & _).
  split; [rewrite H3; lia|apply H; lia].
Defined.

Section Seeding.

Import AppModule.

Lemma upsert_lookup (n k : string) (m : gmap string bool) :
  upsert n m !! k
  = match m !! k with
    | Some b => Some b
    | None => if decide (n = k) then Some false else None
    end.
Proof.
  unfold upsert. destruct (m !! n) eqn:En.
  - destruct (m !! k) eqn:Ek; [reflexivity|].
    destruct (decide (n = k)) as [->|]; [congruence|reflexivity].
  - rewrite lookup_insert. destruct (decide (n = k)) as [->|].
    + rewrite En. reflexivity.
    + destruct (m !! k); reflexivity.
Qed.

Lemma seed_lookup (names : list string) (k : string) (m : gmap string bool) :
  fold_left (fun m n => upsert n m) names m !! k
  = match m !! k with
    | Some b => Some b
    | None => if bool_decide (k ∈ names) then Some false else None
    end.
Proof.
  revert m. induction names as [|n names IH]; intros m; cbn [fold_left].
  - destruct (m !! k); [reflexivity|].
    rewrite bool_decide_eq_false_2; [reflexivity|apply not_elem_of_nil].
  - rewrite IH, upsert_lookup. destruct (m !! k) eqn:Ek; [reflexivity|].
    destruct (decide (n = k)) as [->|Hne].
    + rewrite bool_decide_eq_true_2; [reflexivity|apply elem_of_cons; tauto].
    + destruct (bool_decide (k ∈ names)) eqn:Ein.
      * apply bool_decide_eq_true in Ein.
        rewrite bool_decide_eq_true_2; [reflexivity|apply elem_of_cons; tauto].
      * apply bool_decide_eq_false in Ein.
        rewrite bool_decide_eq_false_2; [reflexivity|].
        intros H. apply elem_of_cons in H. destruct H; [congruence|contradiction].
Qed.

(** X17.  Start-up seeding respects what is there.  A module switch
    that exists keeps its value, a listed module without a switch gets
    one that is off, and no switch is created for a name that is not
    listed.  An existing configuration is left as it is; an empty table
    receives the default row, so there is a configuration afterwards. *)
Theorem onModuleInit_seeds (names : list string) (db : Db) (k : string) :
  moduleState (onModuleInit names db) !! k
  = match moduleState db !! k with
    | Some b => Some b
    | None => if bool_decide (k ∈ names) then Some false else None
    end
  /\ globalConfig (onModuleInit names db)
     = match globalConfig db with
       | [] => [default_config]
       | _ :: _ => globalConfig db
       end
  /\ globalConfig (onModuleInit names db) <> [].
Proof.
  unfold onModuleInit. cbn [moduleState globalConfig].
  split; [apply seed_lookup|].
  destruct (globalConfig db); simpl; split; try reflexivity; discriminate.
Qed.

(** X18.  Start-up seeding is idempotent: running [onModuleInit] again,
    as every restart does, changes nothing. *)
Theorem onModuleInit_idempotent (names : list string) (db : Db) :
  onModuleInit names (onModuleInit names db) = onModuleInit names db.
Proof.
  unfold onModuleInit. cbn [moduleState globalConfig]. f_equal.
  - destruct (globalConfig db); reflexivity.
  - apply map_eq. intros k. rewrite !seed_lookup.
    destruct (moduleState db !! k); [reflexivity|].
    destruct (bool_decide (k ∈ names)); reflexivity.
Qed.

End Seeding.

Example restart_keeps_enabled_module :
  AppModule.moduleState
    (AppModule.onModuleInit ["POS"; "HOUSEKEEPING"]
       (AppModule.mkDb [] {[ "POS" := true ]})) !! "POS" = Some true
  /\ AppModule.moduleState
       (AppModule.onModuleInit ["POS"; "HOUSEKEEPING"]
          (AppModule.mkDb [] {[ "POS" := true ]})) !! "HOUSEKEEPING"
     = Some false.
Proof. vm_compute. split; reflexivity. Qed.
